(** * api_gateway: authentication middleware, rate limiter and S3 file sync

    A shallow embedding of the Python modules
    - [middleware/auth.py]         ([get_current_user], [AuthMiddleware])
    - [middleware/rate_limit.py]   ([RateLimitMiddleware])
    - [services/s3_sync_service.py] ([S3SyncService])
    and of the public path list that [main.py] passes to [AuthMiddleware]. *)

From Stdlib Require Import String Ascii ZArith QArith Qround Lqa List Bool Lia.
From stdpp Require Import base gmap strings list.

Set Warnings "-register-all".
Open Scope string_scope.
Import ListNotations.

(* ------------------------------------------------------------------ *)
(** ** Python strings *)

(** [str.startswith] *)
Fixpoint starts_with (p s : string) : bool :=
  match p, s with
  | EmptyString, _ => true
  | String a p', String b s' => Ascii.eqb a b && starts_with p' s'
  | String _ _, EmptyString => false
  end.

(** [sub in s] on strings *)
Fixpoint contains (sub s : string) : bool :=
  starts_with sub s ||
  match s with
  | EmptyString => false
  | String _ s' => contains sub s'
  end.

(** [str.endswith] *)
Definition ends_with (suf s : string) : bool :=
  (String.length suf <=? String.length s)%nat &&
  String.eqb (substring (String.length s - String.length suf) (String.length suf) s) suf.

(** [s.split(sep)] for a non-empty separator; [fuel] bounds the scan. *)
Fixpoint py_split_go (fuel : nat) (sep s cur : string) : list string :=
  match fuel with
  | O => [cur ++ s]
  | S f =>
      match s with
      | EmptyString => [cur]
      | String c s' =>
          if starts_with sep s
          then cur :: py_split_go f sep
                        (substring (String.length sep) (String.length s) s) EmptyString
          else py_split_go f sep s' (cur ++ String c EmptyString)
      end
  end.

Definition py_split (sep s : string) : list string :=
  py_split_go (S (String.length s)) sep s EmptyString.

(** [s.replace(old, new)] for a non-empty [old]. *)
Fixpoint py_replace_go (fuel : nat) (old new s : string) : string :=
  match fuel with
  | O => s
  | S f =>
      match s with
      | EmptyString => EmptyString
      | String c s' =>
          if starts_with old s
          then new ++ py_replace_go f old new
                        (substring (String.length old) (String.length s) s)
          else String c (py_replace_go f old new s')
      end
  end.

Definition py_replace (old new s : string) : string :=
  py_replace_go (S (String.length s)) old new s.

(* ------------------------------------------------------------------ *)
(** ** Python values (JSON-shaped) and dicts

    Dicts keep insertion order, as Python dicts do; keys are strings
    (JSON/JSONB objects).  A JSON number without fraction or exponent is a
    Python [int] ([PNum]); one with a fraction or an exponent is a [float],
    and [json.loads] also reads [Infinity], [-Infinity] and [NaN] as
    floats.  A finite float is kept as the rational number it denotes. *)

Inductive pyfloat : Type :=
| FFinite (q : Q)
| FInf (negative : bool)
| FNaN.

Inductive pv : Type :=
| PNone
| PBool (b : bool)
| PNum (z : Z)
| PStr (s : string)
| PList (l : list pv)
| PDict (d : list (string * pv))
| PFloat (f : pyfloat).

Definition pdict := list (string * pv).

(** [d.get(k)] *)
Fixpoint dict_get (k : string) (d : pdict) : option pv :=
  match d with
  | [] => None
  | (k', v) :: d' => if String.eqb k k' then Some v else dict_get k d'
  end.

Definition dict_mem (k : string) (d : pdict) : bool :=
  match dict_get k d with Some _ => true | None => false end.

(** [d[k] = v]: an existing key keeps its position, a new key goes last. *)
Fixpoint dict_set (k : string) (v : pv) (d : pdict) : pdict :=
  match d with
  | [] => [(k, v)]
  | (k', v') :: d' =>
      if String.eqb k k' then (k, v) :: d' else (k', v') :: dict_set k v d'
  end.

(** [del d[k]] (only used on present keys) *)
Fixpoint dict_del (k : string) (d : pdict) : pdict :=
  match d with
  | [] => []
  | (k', v') :: d' => if String.eqb k k' then d' else (k', v') :: dict_del k d'
  end.

(** [d.update(u)] *)
Definition dict_update (d u : pdict) : pdict :=
  fold_left (fun acc kv => dict_set (fst kv) (snd kv) acc) u d.

(** The ASCII characters [int()] strips around a number:
    space, [\t], [\n], [\v], [\f], [\r]. *)
Definition is_py_space (c : ascii) : bool :=
  let n := nat_of_ascii c in (n =? 32)%nat || ((9 <=? n)%nat && (n <=? 13)%nat).

Fixpoint drop_spaces (l : list ascii) : list ascii :=
  match l with
  | c :: l' => if is_py_space c then drop_spaces l' else l
  | [] => []
  end.

Definition digit_val (c : ascii) : option Z :=
  let n := nat_of_ascii c in
  if (48 <=? n)%nat && (n <=? 57)%nat then Some (Z.of_nat n - 48)%Z else None.

(** Decimal digits, with single underscores allowed between two digits;
    [after_digit] tells whether the previous character was a digit. *)
Fixpoint parse_digits (l : list ascii) (acc : Z) (after_digit : bool) : option Z :=
  match l with
  | [] => if after_digit then Some acc else None
  | c :: l' =>
      match digit_val c with
      | Some d => parse_digits l' (10 * acc + d)%Z true
      | None =>
          if Ascii.eqb c "_"%char && after_digit then parse_digits l' acc false
          else None
      end
  end.

(** [int(s)] for a string: surrounding whitespace, an optional sign, then
    base-10 digits (leading zeros allowed).  Strings are byte strings here;
    the non-ASCII digits and spaces that [int()] also accepts, and the
    digit-count limit of recent CPython versions, are not modelled. *)
Definition py_int_str (s : string) : option Z :=
  let l := rev (drop_spaces (rev (drop_spaces (list_ascii_of_string s)))) in
  match l with
  | c :: l' =>
      if Ascii.eqb c "-"%char then option_map Z.opp (parse_digits l' 0 false)
      else if Ascii.eqb c "+"%char then parse_digits l' 0 false
      else parse_digits l 0 false
  | [] => None
  end.

(** [int(x)] for a float: rounds toward zero. *)
Definition q_trunc (q : Q) : Z :=
  if Qle_bool 0 q then Qfloor q else (- Qfloor (- q))%Z.

Definition Qltb (x y : Q) : bool := negb (Qle_bool y x).

(* ------------------------------------------------------------------ *)
(** ** Exceptions and a small error monad *)

Inductive jwt_error :=
| InvalidSignatureError      (* signature, header or other claim checks *)
| DecodeError                (* exp claim not an integer *)
| ExpiredSignatureError.

Inductive exn :=
| PyJWTError (e : jwt_error)
| HTTPException (status : Z) (detail : string)
| TypeError                  (* e.g. [None < float], [int(None)] *)
| ValueError                 (* e.g. [int("abc")], [datetime.fromtimestamp] out of range *)
| OverflowError.             (* [int(float("inf"))] *)

Inductive result (A : Type) :=
| Ok (a : A)
| Err (e : exn).
Arguments Ok {A} a.
Arguments Err {A} e.

Definition rbind {A B} (m : result A) (k : A -> result B) : result B :=
  match m with Ok a => k a | Err e => Err e end.

Notation "'let*' x ':=' m 'in' k" := (rbind m (fun x => k))
  (at level 200, x name, m at level 100, k at level 200).

(** [int(x)] for a JSON value [x], as PyJWT applies it to [exp]. *)
Definition py_int (v : pv) : result Z :=
  match v with
  | PNum z => Ok z
  | PBool b => Ok (Z.b2z b)
  | PFloat (FFinite q) => Ok (q_trunc q)
  | PFloat (FInf _) => Err OverflowError
  | PFloat FNaN => Err ValueError
  | PStr s => match py_int_str s with Some z => Ok z | None => Err ValueError end
  | PNone | PList _ | PDict _ => Err TypeError
  end.

(** [a < b] where [a] is a JSON value taken from a dict and [b] a finite
    float; an [int] is compared exactly. *)
Definition py_lt_float (a : option pv) (b : Q) : result bool :=
  match a with
  | Some (PNum z) => Ok (Qltb (inject_Z z) b)
  | Some (PBool x) => Ok (Qltb (inject_Z (Z.b2z x)) b)
  | Some (PFloat (FFinite q)) => Ok (Qltb q b)
  | Some (PFloat (FInf negative)) => Ok negative
  | Some (PFloat FNaN) => Ok false
  | _ => Err TypeError
  end.

(** [datetime.fromtimestamp(x)] before its range check: the number [x]
    denotes. *)
Definition py_timestamp (a : option pv) : result Q :=
  match a with
  | Some (PNum z) => Ok (inject_Z z)
  | Some (PBool x) => Ok (inject_Z (Z.b2z x))
  | Some (PFloat (FFinite q)) => Ok q
  | Some (PFloat (FInf _)) => Err OverflowError
  | Some (PFloat FNaN) => Err ValueError
  | _ => Err TypeError
  end.

Definition exn_str (e : exn) : string :=
  match e with
  | PyJWTError InvalidSignatureError => "Signature verification failed"
  | PyJWTError DecodeError => "Expiration Time claim (exp) must be an integer."
  | PyJWTError ExpiredSignatureError => "Signature has expired"
  | HTTPException _ d => d
  | TypeError => "'<' not supported between instances"
  | ValueError => "year is out of range"
  | OverflowError => "cannot convert float infinity to integer"
  end.

(* ------------------------------------------------------------------ *)
(** ** Configuration ([config.py]) *)

Record settings := {
  API_KEY : string;
  JWT_SECRET_KEY : string;
  JWT_ALGORITHM : string;
  RATE_LIMIT_PER_MINUTE : Z
}.

(* ------------------------------------------------------------------ *)
(** ** PyJWT's [jwt.decode] and the clock *)

Section Auth.

(** Signature and header verification of PyJWT (and its checks of the
    claims other than [exp]): [Some claims] when the token verifies under
    the key and algorithm, [None] when these checks raise a [PyJWTError].
    (The checks of [iat] and [nbf] apply [int()] as well; a token on which
    they raise another exception is not described by this function.) *)
Variable jwt_verify : string -> string -> string -> option pdict.

(** [jwt.decode(token, key, algorithms=[alg])] at real time [now]:
    verification, then PyJWT's [exp] validation: [int(exp)], whose
    [ValueError] becomes [DecodeError] while other exceptions pass through,
    and [ExpiredSignatureError] when [exp <= now] (PyJWT's [now] is the
    real time, possibly truncated to whole seconds, which does not change
    the comparison with an integer). *)
Definition jwt_decode (now : Q) (token key alg : string) : result pdict :=
  match jwt_verify token key alg with
  | None => Err (PyJWTError InvalidSignatureError)
  | Some p =>
      match dict_get "exp" p with
      | None => Ok p
      | Some v =>
          match py_int v with
          | Err ValueError => Err (PyJWTError DecodeError)
          | Err e => Err e   (* TypeError, OverflowError: not caught *)
          | Ok e =>
              if Qle_bool (inject_Z e) now
              then Err (PyJWTError ExpiredSignatureError) else Ok p
          end
      end
  end.

(** [datetime.utcnow().timestamp()]: [utcnow()] is the UTC wall clock as a
    naive datetime and [.timestamp()] reads a naive datetime as local time,
    so the value is the real time minus the host's UTC offset (seconds,
    positive east of Greenwich). *)
Definition utcnow_timestamp (now utc_offset : Q) : Q := now - utc_offset.

(** [get_current_user(credentials)]: [token] is [credentials.credentials]. *)
Definition get_current_user (st : settings) (now utc_offset : Q) (token : string)
  : result pdict :=
  let body :=
    let* payload := jwt_decode now token (JWT_SECRET_KEY st) (JWT_ALGORITHM st) in
    let* expired := py_lt_float (dict_get "exp" payload)
                                (utcnow_timestamp now utc_offset) in
    if expired then Err (HTTPException 401 "Token has expired")
    else Ok payload in
  match body with
  | Err (PyJWTError _) => Err (HTTPException 401 "Invalid authentication credentials")
  | r => r
  end.

(* ------------------------------------------------------------------ *)
(** ** [AuthMiddleware] *)

(** The parts of a Starlette [Request] the middlewares read.  Header names
    are stored lower-cased, as Starlette does, and looked up
    case-insensitively. *)
Record request := {
  method : string;
  path : string;
  headers : list (string * string);
  client_host : option string      (* [request.client] is [None] when [None] *)
}.

(** [request.headers.get(name)] for a lower-case [name] *)
Definition header_get (name : string) (hs : list (string * string)) : option string :=
  match List.find (fun kv => String.eqb (fst kv) name) hs with
  | Some (_, v) => Some v
  | None => None
  end.

(** What [dispatch] does with the request: hand it to [call_next] (with the
    value of [request.state.user], if it was set) or answer it itself with an
    [HTMLResponse]. *)
Inductive auth_outcome :=
| CallNext (user : option pdict)
| HTMLResponse (status_code : Z) (content : string).

(** Whether [datetime.fromtimestamp(x)] succeeds on the host for the
    timestamp [x]. *)
Variable fromtimestamp_ok : Q -> bool.

(** [AuthMiddleware.__init__]: [public_paths or [...]] *)
Definition default_public_paths : list string :=
  ["/health"; "/"; "/api/auth/login"; "/api/auth/refresh"].

Definition init_public_paths (public_paths : option (list string)) : list string :=
  match public_paths with
  | None | Some [] => default_public_paths
  | Some ps => ps
  end.

(** [token = auth_header.split("Bearer ")[1]] *)
Definition list_index1 (l : list string) : result string :=
  match l with
  | _ :: x :: _ => Ok x
  | _ => Err ValueError   (* IndexError; not reachable after the format test *)
  end.

(** The [try] block of [dispatch] for an [Authorization] header [h]. *)
Definition auth_try (st : settings) (now utc_offset : Q) (h : string)
  : result auth_outcome :=
  if negb (contains "Bearer " h) then
    Ok (HTMLResponse 401 "Unauthorized: Invalid authorization format")
  else
    let* token := list_index1 (py_split "Bearer " h) in
    let* payload := jwt_decode now token (JWT_SECRET_KEY st) (JWT_ALGORITHM st) in
    let* expired := py_lt_float (dict_get "exp" payload)
                                (utcnow_timestamp now utc_offset) in
    if expired then
      let* x := py_timestamp (dict_get "exp" payload) in
      if fromtimestamp_ok x
      then Ok (HTMLResponse 401 "Unauthorized: Token has expired")
      else Err ValueError
    else Ok (CallNext (Some payload)).

(** [AuthMiddleware.dispatch] *)
Definition auth_dispatch (st : settings) (public_paths : list string)
    (now utc_offset : Q) (req : request) : auth_outcome :=
  if String.eqb (method req) "OPTIONS" then CallNext None
  else if existsb (fun p => starts_with p (path req)) public_paths then CallNext None
  else
    match header_get "x-api-key" (headers req) with
    | None => HTMLResponse 403 "Unauthorized: Invalid API key"
    | Some api_key =>
        if String.eqb api_key EmptyString || negb (String.eqb api_key (API_KEY st))
        then HTMLResponse 403 "Unauthorized: Invalid API key"
        else
          match header_get "authorization" (headers req) with
          | None => HTMLResponse 401 "Unauthorized: Missing JWT token"
          | Some EmptyString => HTMLResponse 401 "Unauthorized: Missing JWT token"
          | Some h =>
              match auth_try st now utc_offset h with
              | Ok r => r
              | Err (PyJWTError e) =>
                  HTMLResponse 401 ("Unauthorized: Invalid JWT token - "
                                    ++ exn_str (PyJWTError e))
              | Err e =>
                  HTMLResponse 401 ("Unauthorized: Error processing JWT token - "
                                    ++ exn_str e)
              end
          end
    end.

End Auth.

(** The list [main.py] passes as [public_paths]. *)
Definition main_public_paths : list string :=
  ["/health"; "/"; "/api/auth/login"; "/api/auth/refresh"; "/docs"; "/redoc";
   "/openapi.json"; "/test/config"].

(* ------------------------------------------------------------------ *)
(** ** [RateLimitMiddleware] *)

(** What [dispatch] gives back: [await call_next(request)], or the
    [HTTPException(status_code=429, ...)] instance it [return]s. *)
Inductive rl_return :=
| RLCallNext
| RLReturnHTTPException (status_code : Z) (detail : string).

(** [request.client.host if request.client else "unknown"] *)
Definition client_ip (req : request) : string :=
  match client_host req with Some h => h | None => "unknown" end.

(** The comprehension [[t for t in ts if current_time - t < 60]] *)
Definition prune (current_time : Q) (ts : list Q) : list Q :=
  List.filter (fun t => Qltb (current_time - t) 60) ts.

(** [RateLimitMiddleware.dispatch] on [self.request_counts]; [current_time]
    is the value of [time.time()]. *)
Definition rl_dispatch (limit_per_minute : Z) (request_counts : gmap string (list Q))
    (current_time : Q) (req : request) : rl_return * gmap string (list Q) :=
  let ip := client_ip req in
  if String.eqb (path req) "/health" then (RLCallNext, request_counts)
  else
    let counts1 := match request_counts !! ip with
                   | None => <[ip := []]> request_counts
                   | Some _ => request_counts
                   end in
    let pruned := prune current_time (default [] (counts1 !! ip)) in
    let counts2 := <[ip := pruned]> counts1 in
    if (limit_per_minute <=? Z.of_nat (List.length pruned))%Z
    then (RLReturnHTTPException 429 "Too many requests", counts2)
    else (RLCallNext, <[ip := (pruned ++ [current_time])%list]> counts2).

(** Starlette's [BaseHTTPMiddleware.__call__] runs
    [response = await self.dispatch_func(request, call_next)] and then
    [await response(scope, receive, send)].  A FastAPI [HTTPException]
    instance is not callable, so that call raises [TypeError], which the
    outermost [ServerErrorMiddleware] answers with status 500.  The status
    the client receives, given the status of the wrapped handler: *)
Definition rl_client_status (handler_status : Z) (r : rl_return) : Z :=
  match r with
  | RLCallNext => handler_status
  | RLReturnHTTPException _ _ => 500
  end.

(** The middleware's state after a sequence of requests, from the empty
    [request_counts] of [__init__]. *)
Fixpoint rl_run (limit_per_minute : Z) (request_counts : gmap string (list Q))
    (reqs : list (Q * request)) : gmap string (list Q) :=
  match reqs with
  | [] => request_counts
  | (t, r) :: rest =>
      rl_run limit_per_minute (snd (rl_dispatch limit_per_minute request_counts t r)) rest
  end.

(* ------------------------------------------------------------------ *)
(** ** [S3SyncService]

    The [user_submissions] rows the service reads and writes, and the
    SQLAlchemy session each method runs in: [session_scope] commits when
    the block ends and rolls back when it raises, and every exception ends
    in the method's own [except] branch, which returns a [status: error]
    dict.

    A row changes only through [repo.update(submission.id, {col: value})],
    that is [setattr(obj, col, value)] and [flush()].  The columns
    [document_names] ([ARRAY]) and [s3_file_links] (plain [JSONB], no
    [MutableDict]) are not tracked for in-place mutation: [setattr] records
    the attribute's current value as its committed value, and [flush]
    writes the column only when the new value differs from it.  The methods
    read [submission.col or default]; when the column is truthy, the local
    variable is the loaded attribute object itself, which they mutate in
    place and then pass back to [repo.update].  The recorded value is then
    that same mutated object, the comparison finds no change, and nothing is
    written (the commit expires the object, which is re-read as stored).
    Only a new object (the [or default] branch, or a value built afresh) is
    written.

    The repository: each method opens
    [self.user_submission_repo.session_scope()] and builds a
    [UserSubmissionRepository] on the session it yields.  The model is of a
    service whose [user_submission_repo] provides such a [session_scope]
    over the [user_submissions] table, which every method requires.  The
    class the constructor's annotation names, [UserSubmissionRepository],
    defines no [session_scope], and [dependencies.py] defines no
    [get_s3_sync_service] for the documents router to import; with such a
    repository every method raises [AttributeError] inside its [try] and
    returns its [status: error] dict without touching the table.  All the
    statements about the service are about its behaviour with a working
    [session_scope]. *)

Record submission := {
  submission_pk : Z;                       (* column [id] *)
  submission_id : string;
  document_names : option (list string);   (* ARRAY(String) *)
  s3_file_links : option pdict             (* JSONB object *)
}.

(** [repo.get_by_submission_id(submission_id)] *)
Definition find_submission (db : list submission) (sid : string) : option submission :=
  List.find (fun s => String.eqb (submission_id s) sid) db.

Definition set_links (v : pdict) (s : submission) : submission :=
  {| submission_pk := submission_pk s; submission_id := submission_id s;
     document_names := document_names s; s3_file_links := Some v |}.

Definition set_docs (v : list string) (s : submission) : submission :=
  {| submission_pk := submission_pk s; submission_id := submission_id s;
     document_names := Some v; s3_file_links := s3_file_links s |}.

(** A written [UPDATE ... WHERE id = pk]. *)
Definition update_row (pk : Z) (f : submission -> submission) (db : list submission)
  : list submission :=
  map (fun s => if Z.eqb (submission_pk s) pk then f s else s) db.

(** Whether a local variable is the row's own attribute object or a new
    object. *)
Inductive pyref := Loaded | Fresh.

(** [submission.s3_file_links or {}] *)
Definition links_ref (sub : submission) : pyref :=
  match s3_file_links sub with Some (_ :: _) => Loaded | _ => Fresh end.

(** [submission.document_names or []] *)
Definition docs_ref (sub : submission) : pyref :=
  match document_names sub with Some (_ :: _) => Loaded | _ => Fresh end.

Inductive column_value :=
| ColDocs (v : list string)
| ColLinks (v : pdict).

(** One column assignment of a [repo.update(submission.id, {...})] call,
    with the object passed. *)
Record repo_update := {
  ru_pk : Z;
  ru_ref : pyref;
  ru_value : column_value
}.

Definition apply_column (c : column_value) (s : submission) : submission :=
  match c with
  | ColDocs v => set_docs v s
  | ColLinks v => set_links v s
  end.

(** [setattr] and [flush]: the loaded object passed back is no change. *)
Definition flush_update (db : list submission) (u : repo_update) : list submission :=
  match ru_ref u with
  | Loaded => db
  | Fresh => update_row (ru_pk u) (apply_column (ru_value u)) db
  end.

(** The rows after the session commits a method's [repo.update] calls. *)
Definition commit_updates (db : list submission) (us : list repo_update)
  : list submission :=
  fold_left flush_update us db.

(** The [file_info] dict of [sync_file_changes]: the keys the method reads;
    [None] is an absent key.  [category], [filename] and [s3_key] are
    strings, as the documents router passes them from the JSON body. *)
Record file_info := {
  fi_category : option string;
  fi_filename : option string;
  fi_s3_key : option string;
  fi_size : option pv;
  fi_content_type : option pv;
  fi_version : option pv
}.

Definition error_result (msg : string) : pdict :=
  [("status", PStr "error"); ("message", PStr msg)].

(** [isinstance(file_data, dict) and file_data.get('original_name') == filename] *)
Definition matches_name (filename : string) (v : pv) : bool :=
  match v with
  | PDict d =>
      match dict_get "original_name" d with
      | Some (PStr s) => String.eqb s filename
      | _ => false
      end
  | _ => false
  end.

(** The search loop of [sync_file_changes]: the first matching index. *)
Fixpoint first_match (filename : string) (l : list pv) : option (nat * pdict) :=
  match l with
  | [] => None
  | v :: l' =>
      match v with
      | PDict d =>
          if matches_name filename v then Some (0%nat, d)
          else option_map (fun p => (S (fst p), snd p)) (first_match filename l')
      | _ => option_map (fun p => (S (fst p), snd p)) (first_match filename l')
      end
  end.

(** [sync_file_changes(submission_id, file_info)]; [now_iso] is
    [datetime.utcnow().isoformat()] and [generated_version] is
    [f"v{int(datetime.utcnow().timestamp())}"]. *)
Definition sync_file_changes (bucket now_iso generated_version : string)
    (db : list submission) (sid : string) (fi : file_info) : pdict * list repo_update :=
  match find_submission db sid with
  | None => (error_result ("Submission " ++ sid ++ " not found"), [])
  | Some sub =>
      let links0 := default [] (s3_file_links sub) in
      let category := default "files" (fi_category fi) in
      let links := if dict_mem category links0 then links0
                   else dict_set category (PList []) links0 in
      match fi_filename fi, fi_s3_key fi with
      | Some filename, Some s3_key =>
          if String.eqb filename EmptyString || String.eqb s3_key EmptyString
          then (error_result "Missing required file information", [])
          else
            match dict_get category links with
            | Some (PList files) =>
                let s3_url := "https://" ++ bucket ++ ".s3.amazonaws.com/" ++ s3_key in
                let info0 := [("original_name", PStr filename); ("s3_key", PStr s3_key);
                              ("url", PStr s3_url); ("updated_at", PStr now_iso)] in
                let info1 := match fi_size fi with
                             | Some v => dict_set "size" v info0 | None => info0 end in
                let info2 := match fi_content_type fi with
                             | Some v => dict_set "content_type" v info1 | None => info1 end in
                let version := match fi_version fi with
                               | Some v => v | None => PStr generated_version end in
                let info := dict_set "version" version info2 in
                let ok action :=
                  [("status", PStr "success");
                   ("message", PStr ("File " ++ action ++ " successfully"));
                   ("filename", PStr filename); ("s3_key", PStr s3_key);
                   ("url", PStr s3_url); ("version", version)] in
                match first_match filename files with
                | Some (idx, existing) =>
                    let ex1 := if dict_mem "versions" existing then existing
                               else dict_set "versions" (PList []) existing in
                    let copy := dict_del "versions" ex1 in
                    match dict_get "versions" ex1 with
                    | Some (PList vs) =>
                        let ex2 := dict_update
                                     (dict_set "versions" (PList (app vs [PDict copy])) ex1)
                                     info in
                        let links' := dict_set category
                                        (PList (<[idx := PDict ex2]> files)) links in
                        (ok "updated",
                         [{| ru_pk := submission_pk sub; ru_ref := links_ref sub;
                             ru_value := ColLinks links' |}])
                    | _ =>   (* AttributeError: no [append] *)
                        (error_result "Error syncing file changes: no attribute 'append'", [])
                    end
                | None =>
                    let newf := dict_set "created_at" (PStr now_iso)
                                  (dict_set "versions" (PList []) info) in
                    let links' := dict_set category (PList (app files [PDict newf])) links in
                    let docs := default [] (document_names sub) in
                    let docs_update :=
                      if existsb (String.eqb filename) docs then []
                      else [{| ru_pk := submission_pk sub; ru_ref := docs_ref sub;
                               ru_value := ColDocs (app docs [filename]) |}] in
                    (ok "added",
                     app docs_update
                       [{| ru_pk := submission_pk sub; ru_ref := links_ref sub;
                           ru_value := ColLinks links' |}])
                end
            | _ =>   (* the category holds no list: [append] or iteration fails *)
                (error_result "Error syncing file changes: not a list", [])
            end
      | _, _ => (error_result "Missing required file information", [])
      end
  end.

(** [list.remove(x)]: drops the first occurrence. *)
Fixpoint remove_first (x : string) (l : list string) : list string :=
  match l with
  | [] => []
  | y :: l' => if String.eqb x y then l' else y :: remove_first x l'
  end.

(** [delete_file_from_db(submission_id, filename, category)] *)
Definition delete_file_from_db (db : list submission) (sid filename category : string)
  : pdict * list repo_update :=
  match find_submission db sid with
  | None => (error_result ("Submission " ++ sid ++ " not found"), [])
  | Some sub =>
      let links := default [] (s3_file_links sub) in
      match dict_get category links with
      | None => (error_result ("Category " ++ category ++ " not found"), [])
      | Some (PList files) =>
          if negb (existsb (matches_name filename) files)
          then (error_result ("File " ++ filename ++ " not found"), [])
          else
            let updated_files := List.filter (fun v => negb (matches_name filename v)) files in
            let links' := dict_set category (PList updated_files) links in
            let docs := default [] (document_names sub) in
            let docs_update :=
              if existsb (String.eqb filename) docs
              then [{| ru_pk := submission_pk sub; ru_ref := docs_ref sub;
                       ru_value := ColDocs (remove_first filename docs) |}]
              else [] in
            ([("status", PStr "success"); ("message", PStr "File deleted successfully");
              ("filename", PStr filename)],
             app docs_update
               [{| ru_pk := submission_pk sub; ru_ref := links_ref sub;
                   ru_value := ColLinks links' |}])
      | Some (PStr _) | Some (PDict _) =>
          (* iterating yields strings, none of them a dict *)
          (error_result ("File " ++ filename ++ " not found"), [])
      | Some _ =>   (* TypeError: not iterable *)
          (error_result "Error deleting file info: not iterable", [])
      end
  end.

(** An entry of [list_objects_v2(...)['Contents']]; [LastModified] is
    already rendered with [.isoformat()]. *)
Record s3_object := {
  Key : string;
  LastModified : string
}.

(** [set(...)] and [.add]; the order of [list(set(...))] depends on string
    hashing in Python and is kept here as first insertion order. *)
Definition set_add (x : string) (s : list string) : list string :=
  if existsb (String.eqb x) s then s else app s [x].

Definition set_of (l : list string) : list string := fold_left (fun s x => set_add x s) l [].

(** One iteration of the loop over [s3_objects['Contents']]. *)
Definition scan_step (bucket prefix : string) (acc : pdict * list string) (obj : s3_object)
  : pdict * list string :=
  let (links, names) := acc in
  let s3_key := Key obj in
  if ends_with "/" s3_key then acc
  else
    let path_parts := py_split "/" (py_replace prefix EmptyString s3_key) in
    let '(category, filename) :=
      match path_parts with
      | c :: (_ :: _) as rest => (c, String.concat "/" rest)
      | p :: _ => ("files", p)
      | [] => ("files", EmptyString)
      end in
    let links1 := if dict_mem category links then links
                  else dict_set category (PList []) links in
    let s3_url := "https://" ++ bucket ++ ".s3.amazonaws.com/" ++ s3_key in
    let info := [("original_name", PStr filename); ("s3_key", PStr s3_key);
                 ("url", PStr s3_url); ("last_modified", PStr (LastModified obj))] in
    let links2 := match dict_get category links1 with
                  | Some (PList l) => dict_set category (PList (app l [PDict info])) links1
                  | _ => links1
                  end in
    (links2, set_add filename names).

(** [scan_and_sync_submission(submission_id)]; [contents] is
    [s3_objects['Contents']], [None] when the listing has no [Contents]. *)
Definition scan_and_sync_submission (bucket base_path : string)
    (contents : option (list s3_object)) (db : list submission) (sid : string)
  : pdict * list repo_update :=
  let prefix := base_path ++ sid ++ "/" in
  match contents with
  | None => ([("status", PStr "warning"); ("message", PStr "No files found in S3")], [])
  | Some objs =>
      match find_submission db sid with
      | None => (error_result ("Submission " ++ sid ++ " not found"), [])
      | Some sub =>
          let docs := default [] (document_names sub) in
          let '(links', names') := fold_left (scan_step bucket prefix) objs ([], set_of docs) in
          ([("status", PStr "success");
            ("message", PStr "Files synchronized successfully");
            ("file_count", PNum (Z.of_nat (List.length objs) - 1));
            ("categories", PList (map (fun kv => PStr (fst kv)) links'))],
           [{| ru_pk := submission_pk sub; ru_ref := Fresh; ru_value := ColLinks links' |};
            {| ru_pk := submission_pk sub; ru_ref := Fresh; ru_value := ColDocs names' |}])
      end
  end.

(** The entry that [get_file_versions] reports for [filename] in
    [category]: the first dict whose [original_name] is [filename]. *)
Definition entry_in (sub : submission) (category filename : string) : option pdict :=
  match dict_get category (default [] (s3_file_links sub)) with
  | Some (PList files) => option_map snd (first_match filename files)
  | _ => None
  end.

Definition entry_of (db : list submission) (sid category filename : string) : option pdict :=
  match find_submission db sid with
  | None => None
  | Some sub => entry_in sub category filename
  end.

(** A call of each method in its own session: the returned dict and the
    rows after the commit. *)
Definition run_sync (bucket now_iso generated_version : string) (db : list submission)
    (sid : string) (fi : file_info) : pdict * list submission :=
  let (res, us) := sync_file_changes bucket now_iso generated_version db sid fi in
  (res, commit_updates db us).

Definition run_delete (db : list submission) (sid filename category : string)
  : pdict * list submission :=
  let (res, us) := delete_file_from_db db sid filename category in
  (res, commit_updates db us).

Definition run_scan (bucket base_path : string) (contents : option (list s3_object))
    (db : list submission) (sid : string) : pdict * list submission :=
  let (res, us) := scan_and_sync_submission bucket base_path contents db sid in
  (res, commit_updates db us).

(** [file_data.get('versions', [])] as a list *)
Definition versions_of (d : pdict) : list pv :=
  match dict_get "versions" d with
  | Some (PList vs) => vs
  | _ => []
  end.

(* ------------------------------------------------------------------ *)
(** ** Concrete configurations and inputs used by the examples below *)

Definition example_settings : settings :=
  {| API_KEY := "default-api-key"; JWT_SECRET_KEY := "secret";
     JWT_ALGORITHM := "HS256"; RATE_LIMIT_PER_MINUTE := 100 |}.

(** A verifier that accepts the token ["tok"] under ["secret"]/["HS256"],
    with claims [claims]. *)
Definition verify_only_tok (claims : pdict) : string -> string -> string -> option pdict :=
  fun t k a =>
    if String.eqb t "tok" && String.eqb k "secret" && String.eqb a "HS256"
    then Some claims else None.

Definition get_request (p : string) (hs : list (string * string)) : request :=
  {| method := "GET"; path := p; headers := hs; client_host := Some "10.0.0.1" |}.

(** The authentication requirement for protected paths as the claim words
    it, reading "of Bearer form" as "Bearer " followed by the token. *)
Definition auth_claim_as_stated : Prop :=
  forall (jwt_verify : string -> string -> string -> option pdict)
         (fts : Q -> bool) (st : settings) (ps : list string) (now off : Q)
         (req : request),
    method req <> "OPTIONS" ->
    existsb (fun p => starts_with p (path req)) ps = false ->
    header_get "x-api-key" (headers req) = Some (API_KEY st) ->
    forall h, header_get "authorization" (headers req) = Some h ->
    starts_with "Bearer " h = false ->
    exists c, auth_dispatch jwt_verify fts st ps now off req = HTMLResponse 401 c.

(** Claims of a token issued by [AuthService._create_access_token] at
    real time 1700000000: [exp] is 30 minutes later. *)
Definition fresh_claims : pdict :=
  [("sub", PStr "1"); ("username", PStr "admin"); ("exp", PNum 1700001800)].

(** The API key configured as the empty string ([API_KEY=""] in the
    environment). *)
Definition empty_key_settings : settings :=
  {| API_KEY := EmptyString; JWT_SECRET_KEY := "secret";
     JWT_ALGORITHM := "HS256"; RATE_LIMIT_PER_MINUTE := 100 |}.

(** The rate-limit rule as the claim words it: timestamps recorded more
    than 60 seconds ago are discarded, the others count. *)
Definition rate_limit_claim_as_stated : Prop :=
  forall (limit : Z) (counts : gmap string (list Q)) (now : Q) (req : request),
    path req <> "/health" ->
    (fst (rl_dispatch limit counts now req) = RLCallNext <->
     (Z.of_nat (List.length
        (List.filter (fun t => negb (Qltb 60 (now - t)))
           (default [] (counts !! client_ip req)))) < limit)%Z).

(** Every per-IP list holds at most [limit] timestamps. *)
Definition rl_bounded (limit : Z) (counts : gmap string (list Q)) : Prop :=
  forall ip ts, counts !! ip = Some ts -> (Z.of_nat (List.length ts) <= limit)%Z.

(** A stored submission whose ["files"] category holds one entry with one
    recorded earlier version. *)
Definition versioned_entry : pdict :=
  [("original_name", PStr "a.pdf"); ("s3_key", PStr "submissions/s1/files/a.pdf");
   ("versions", PList [PDict [("original_name", PStr "a.pdf");
                              ("s3_key", PStr "submissions/s1/files/a_v0.pdf")]])].

Definition versioned_row : submission :=
  {| submission_pk := 1; submission_id := "s1"; document_names := Some ["a.pdf"];
     s3_file_links := Some [("files", PList [PDict versioned_entry])] |}.

(** A new upload of ["a.pdf"] as the documents router reports it. *)
Definition new_upload : file_info :=
  {| fi_category := Some "files"; fi_filename := Some "a.pdf";
     fi_s3_key := Some "submissions/s1/files/a_v2.pdf"; fi_size := Some (PNum 2048);
     fi_content_type := Some (PStr "application/pdf"); fi_version := None |}.

(** An S3 listing of the submission's prefix holding that file. *)
Definition scan_listing : list s3_object :=
  [{| Key := "submissions/s1/files/a.pdf"; LastModified := "2024-01-01T00:00:00" |}].

(** Recorded history survives an operation: an entry found (by category
    and [original_name]) before and after keeps every element of its
    [versions] list. *)
Definition history_preserved (db db' : list submission) : Prop :=
  forall sid category filename d d',
    entry_of db sid category filename = Some d ->
    entry_of db' sid category filename = Some d' ->
    forall v, In v (versions_of d) -> In v (versions_of d').

(** The history invariant as the claim words it, for every store whose
    primary keys are distinct. *)
Definition history_claim_as_stated : Prop :=
  forall db, NoDup (map submission_pk db) ->
    (forall bucket now_iso generated_version sid fi,
       history_preserved db (snd (run_sync bucket now_iso generated_version db sid fi))) /\
    (forall sid filename category,
       history_preserved db (snd (run_delete db sid filename category))) /\
    (forall bucket base_path contents sid,
       history_preserved db (snd (run_scan bucket base_path contents db sid))).

(** Every category of a links dict holds a list of dicts without a
    [versions] key. *)
Definition links_clean (links : pdict) : Prop :=
  forall category files, dict_get category links = Some (PList files) ->
  forall v, In v files -> exists d, v = PDict d /\ dict_get "versions" d = None.

(* ------------------------------------------------------------------ *)
(** ** The dependency [verify_api_key] *)

(** [verify_api_key(api_key)]; [api_key] is the value the [APIKeyHeader]
    dependency hands over. *)
Definition verify_api_key (st : settings) (api_key : string) : result string :=
  if negb (String.eqb api_key (API_KEY st))
  then Err (HTTPException 403 "Недействительный API-ключ")
  else Ok api_key.

(* ------------------------------------------------------------------ *)
(** ** [get_file_versions] *)

(** [len(x)] of a JSON value; a string is measured in characters (bytes
    of an ASCII string here). *)
Definition py_len (v : pv) : option nat :=
  match v with
  | PList l => Some (List.length l)
  | PDict d => Some (List.length d)
  | PStr s => Some (String.length s)
  | _ => None   (* TypeError *)
  end.

(** [get_file_versions(submission_id, filename, category)]; it only reads,
    so it returns the dict alone. *)
Definition get_file_versions (db : list submission) (sid filename category : string)
  : pdict :=
  match find_submission db sid with
  | None => error_result ("Submission " ++ sid ++ " not found")
  | Some sub =>
      let links := default [] (s3_file_links sub) in
      match dict_get category links with
      | None => error_result ("Category " ++ category ++ " not found")
      | Some (PList files) =>
          match first_match filename files with
          | None => error_result ("File " ++ filename ++ " not found")
          | Some (_, []) =>   (* [not file_data] *)
              error_result ("File " ++ filename ++ " not found")
          | Some (_, file_data) =>
              let versions := match dict_get "versions" file_data with
                              | Some v => v | None => PList [] end in
              let current_version := dict_del "versions" file_data in
              match py_len versions with
              | Some n =>
                  [("status", PStr "success"); ("filename", PStr filename);
                   ("current_version", PDict current_version);
                   ("versions", versions); ("version_count", PNum (Z.of_nat n))]
              | None =>
                  error_result "Error getting file versions: object has no len()"
              end
          end
      | Some (PStr _) | Some (PDict _) =>
          (* iterating yields strings, none of them a dict *)
          error_result ("File " ++ filename ++ " not found")
      | Some _ =>   (* TypeError: not iterable *)
          error_result "Error getting file versions: not iterable"
      end
  end.

(** The number of file entries of a links dict: the lengths of its
    category lists. *)
Definition val_count (v : pv) : nat :=
  match v with PList l => List.length l | _ => 0 end.

Definition entry_count (links : pdict) : nat :=
  fold_right (fun kv acc => (val_count (snd kv) + acc)%nat) 0%nat links.

(** The objects of a listing that the scan does not skip as directories. *)
Definition listed_files (objs : list s3_object) : list s3_object :=
  List.filter (fun o => negb (ends_with "/" (Key o))) objs.

(** What the loop of [scan_and_sync_submission] keeps: every category
    holds a list of dicts without [versions], each named by a string
    [original_name] that is among the collected names. *)
Definition scan_inv (acc : pdict * list string) : Prop :=
  forall category v, dict_get category (fst acc) = Some v ->
  exists l, v = PList l /\
    forall x, In x l -> exists d n, x = PDict d /\ dict_get "versions" d = None /\
      dict_get "original_name" d = Some (PStr n) /\ In n (snd acc).

(* ------------------------------------------------------------------ *)
(** ** Several requests through [RateLimitMiddleware] *)

(** The number of requests of [ip] (other than ["/health"]) that the
    middleware hands to [call_next] along a sequence of requests. *)
Fixpoint rl_forwarded (limit_per_minute : Z) (request_counts : gmap string (list Q))
    (reqs : list (Q * request)) (ip : string) : nat :=
  match reqs with
  | [] => 0%nat
  | (t, r) :: rest =>
      let (o, counts') := rl_dispatch limit_per_minute request_counts t r in
      ((if String.eqb (client_ip r) ip && negb (String.eqb (path r) "/health")
        then match o with RLCallNext => 1 | RLReturnHTTPException _ _ => 0 end
        else 0)
       + rl_forwarded limit_per_minute counts' rest ip)%nat
  end.

(** [a <= t < a + 60] *)
Definition in_minute (a t : Q) : bool := Qle_bool a t && Qltb t (a + 60).

(* ------------------------------------------------------------------ *)
(** ** The middleware stack of [main.py]

    [add_middleware] (and [@app.middleware("http")]) inserts at the front
    of the stack, so the last one added runs first: [CORSMiddleware],
    [RateLimitMiddleware], [AuthMiddleware] (with [main_public_paths]),
    [log_requests], [log_cors_details], then the route.  The two logging
    middlewares pass every request on and re-raise.  [CORSMiddleware]
    answers CORS preflight requests ([OPTIONS]) itself and passes every
    other request on unchanged; the stack below is the path of a request
    it passes on. *)
Inductive app_outcome :=
| AppRoute (user : option pdict)    (* the route handler runs *)
| AppStatus (status_code : Z).      (* answered without the route *)

Definition app_dispatch (jwt_verify : string -> string -> string -> option pdict)
    (fromtimestamp_ok : Q -> bool) (st : settings)
    (request_counts : gmap string (list Q)) (now utc_offset : Q) (req : request)
  : app_outcome * gmap string (list Q) :=
  let (r, counts') := rl_dispatch (RATE_LIMIT_PER_MINUTE st) request_counts now req in
  match r with
  | RLReturnHTTPException _ _ => (AppStatus 500, counts')
  | RLCallNext =>
      match auth_dispatch jwt_verify fromtimestamp_ok st main_public_paths now utc_offset req
      with
      | CallNext user => (AppRoute user, counts')
      | HTMLResponse code _ => (AppStatus code, counts')
      end
  end.

(** [file_data.get('versions', [])] *)
Definition versions_value (d : pdict) : pv :=
  match dict_get "versions" d with Some v => v | None => PList [] end.

(** The row a method's calls leave, when it starts from [sub]. *)
Definition commit_row (us : list repo_update) (sub : submission) : submission :=
  fold_left (fun s u => match ru_ref u with Loaded => s | Fresh => apply_column (ru_value u) s end)
    us sub.

Definition opt_count (o : option pv) : nat :=
  match o with Some v => val_count v | None => 0 end.

(** A submission whose [s3_file_links] was never written. *)
Definition fresh_row : submission :=
  {| submission_pk := 2; submission_id := "s2"; document_names := None;
     s3_file_links := None |}.

(* ================================================================== *)
(** * Properties *)

Lemma starts_with_app_l (p s : string) : starts_with p (p ++ s) = true.
Proof.
  induction p as [|a p IH]; simpl; [reflexivity|].
  rewrite Ascii.eqb_refl, IH. reflexivity.
Qed.

Lemma contains_empty_false (sub : string) :
  sub <> EmptyString -> contains sub EmptyString = false.
Proof. destruct sub; [congruence|reflexivity]. Qed.

(** C2: with the public paths of [main.py] (which include ["/"]), every
    request whose path starts with ["/"] is handed to the wrapped handler
    unchanged: neither the API key nor the JWT is looked at, and no 403 or
    401 answer is produced. *)
Theorem main_public_paths_forward_everything
    (jwt_verify : string -> string -> string -> option pdict) (fts : Q -> bool)
    (st : settings) (now off : Q) (req : request)
    (Hpath : starts_with "/" (path req) = true) :
  auth_dispatch jwt_verify fts st (init_public_paths (Some main_public_paths)) now off req
  = CallNext None.
Proof.
  unfold auth_dispatch, init_public_paths, main_public_paths.
  destruct (String.eqb (method req) "OPTIONS"); [reflexivity|].
  cbn [existsb]. rewrite Hpath, orb_true_r. reflexivity.
Qed.

Lemma main_public_paths_forward_everything_witness :
  starts_with "/" "/api/customers" = true /\
  auth_dispatch (verify_only_tok []) (fun _ => true) example_settings
    (init_public_paths (Some main_public_paths)) 0 0
    (get_request "/api/customers" []) = CallNext None.
Proof.
  split; [reflexivity|].
  apply (main_public_paths_forward_everything (verify_only_tok []) (fun _ => true)
           example_settings 0 0 (get_request "/api/customers" [])).
  reflexivity.
Defined.

(** After the OPTIONS test and the public-path test, [dispatch] checks the
    API key and then the [Authorization] header. *)
Lemma auth_dispatch_protected
    (jwt_verify : string -> string -> string -> option pdict) (fts : Q -> bool)
    (st : settings) (ps : list string) (now off : Q) (req : request) :
  method req <> "OPTIONS" ->
  existsb (fun p => starts_with p (path req)) ps = false ->
  auth_dispatch jwt_verify fts st ps now off req =
  match header_get "x-api-key" (headers req) with
  | None => HTMLResponse 403 "Unauthorized: Invalid API key"
  | Some api_key =>
      if String.eqb api_key EmptyString || negb (String.eqb api_key (API_KEY st))
      then HTMLResponse 403 "Unauthorized: Invalid API key"
      else
        match header_get "authorization" (headers req) with
        | None => HTMLResponse 401 "Unauthorized: Missing JWT token"
        | Some EmptyString => HTMLResponse 401 "Unauthorized: Missing JWT token"
        | Some h =>
            match auth_try jwt_verify fts st now off h with
            | Ok r => r
            | Err (PyJWTError e) =>
                HTMLResponse 401 ("Unauthorized: Invalid JWT token - "
                                  ++ exn_str (PyJWTError e))
            | Err e =>
                HTMLResponse 401 ("Unauthorized: Error processing JWT token - "
                                  ++ exn_str e)
            end
        end
  end.
Proof.
  intros Hm Hp. unfold auth_dispatch.
  rewrite (proj2 (String.eqb_neq _ _) Hm), Hp. reflexivity.
Qed.

(** C10: a token that verifies under [JWT_SECRET_KEY] but has no [exp]
    claim makes [get_current_user] raise [TypeError] (from [None < float]),
    which its [except jwt.PyJWTError] does not catch; the middleware's
    generic [except Exception] turns the same error into a 401 response. *)
Theorem token_without_exp_typeerror_vs_401
    (jwt_verify : string -> string -> string -> option pdict) (fts : Q -> bool)
    (st : settings) (ps : list string) (now off : Q) (req : request)
    (h token : string) (p : pdict)
    (Hverify : jwt_verify token (JWT_SECRET_KEY st) (JWT_ALGORITHM st) = Some p)
    (Hnoexp : dict_get "exp" p = None) :
  get_current_user jwt_verify st now off token = Err TypeError /\
  (method req <> "OPTIONS" ->
   existsb (fun q => starts_with q (path req)) ps = false ->
   header_get "x-api-key" (headers req) = Some (API_KEY st) ->
   API_KEY st <> EmptyString ->
   header_get "authorization" (headers req) = Some h ->
   contains "Bearer " h = true ->
   list_index1 (py_split "Bearer " h) = Ok token ->
   auth_dispatch jwt_verify fts st ps now off req
   = HTMLResponse 401 ("Unauthorized: Error processing JWT token - " ++ exn_str TypeError)).
Proof.
  split.
  - unfold get_current_user, jwt_decode. rewrite Hverify, Hnoexp. cbn.
    rewrite Hnoexp. reflexivity.
  - intros Hm Hp Hkey Hne Hauth Hc Hidx.
    rewrite (auth_dispatch_protected _ _ _ _ _ _ _ Hm Hp), Hkey.
    rewrite (proj2 (String.eqb_neq _ _) Hne), String.eqb_refl. cbn [orb negb].
    rewrite Hauth.
    destruct h as [|a h'].
    + rewrite contains_empty_false in Hc; discriminate.
    + unfold auth_try. rewrite Hc. cbn [negb]. rewrite Hidx. cbn [rbind].
      unfold jwt_decode. rewrite Hverify, Hnoexp. cbn [rbind].
      rewrite Hnoexp. reflexivity.
Qed.

Lemma token_without_exp_typeerror_vs_401_witness :
  verify_only_tok [("sub", PStr "1")] "tok" "secret" "HS256" = Some [("sub", PStr "1")] /\
  dict_get "exp" [("sub", PStr "1")] = None /\
  get_current_user (verify_only_tok [("sub", PStr "1")]) example_settings 0 0 "tok"
    = Err TypeError /\
  auth_dispatch (verify_only_tok [("sub", PStr "1")]) (fun _ => true) example_settings
    ["/health"] 0 0
    (get_request "/api/customers"
       [("x-api-key", "default-api-key"); ("authorization", "Bearer tok")])
  = HTMLResponse 401 ("Unauthorized: Error processing JWT token - " ++ exn_str TypeError).
Proof.
  destruct (token_without_exp_typeerror_vs_401
              (verify_only_tok [("sub", PStr "1")]) (fun _ => true) example_settings
              ["/health"] 0 0
              (get_request "/api/customers"
                 [("x-api-key", "default-api-key"); ("authorization", "Bearer tok")])
              "Bearer tok" "tok" [("sub", PStr "1")] eq_refl eq_refl) as [H1 H2].
  split; [reflexivity|]. split; [reflexivity|]. split; [exact H1|].
  apply H2; try reflexivity; discriminate.
Defined.

Lemma Qle_bool_false (x y : Q) : (y < x)%Q -> Qle_bool x y = false.
Proof.
  intros H. destruct (Qle_bool x y) eqn:E; [|reflexivity].
  apply Qle_bool_iff in E. exfalso. apply (Qlt_not_le y x H E).
Qed.

Lemma Qle_bool_true (x y : Q) : (x <= y)%Q -> Qle_bool x y = true.
Proof. intros H. apply Qle_bool_iff. exact H. Qed.

(** What [get_current_user] does get right: a token that [jwt.decode] rejects
    with a [PyJWTError] (bad signature, [exp] not an integer, or [exp] at or
    before the real time) gives the 401
    HTTPException; a token that verifies with [exp] after the real time is
    accepted when the host's UTC offset is zero or east of Greenwich. *)
Lemma get_current_user_decode_errors
    (jwt_verify : string -> string -> string -> option pdict)
    (st : settings) (now off : Q) (token : string) :
  (forall j, jwt_decode jwt_verify now token (JWT_SECRET_KEY st) (JWT_ALGORITHM st)
             = Err (PyJWTError j) ->
   get_current_user jwt_verify st now off token
   = Err (HTTPException 401 "Invalid authentication credentials")) /\
  (forall p,
   jwt_verify token (JWT_SECRET_KEY st) (JWT_ALGORITHM st) = Some p ->
   forall e, dict_get "exp" p = Some (PNum e) -> (0 <= off)%Q -> (now < inject_Z e)%Q ->
   get_current_user jwt_verify st now off token = Ok p).
Proof.
  split.
  - intros j He. unfold get_current_user. rewrite He. reflexivity.
  - intros p Hv e He Hoff Hlt. unfold get_current_user, jwt_decode.
    rewrite Hv, He. cbn [py_int]. rewrite (Qle_bool_false _ _ Hlt). cbn [rbind].
    rewrite He. unfold py_lt_float, Qltb, utcnow_timestamp.
    rewrite Qle_bool_true by lra. reflexivity.
Qed.

(** C7 (code bug): on a host whose local time zone is UTC-5, the check
    [payload.get("exp") < datetime.utcnow().timestamp()] compares with a
    value five hours ahead of the real time, so a token that verifies and
    expires 30 minutes in the future is rejected with 401
    "Token has expired". *)
Theorem get_current_user_rejects_fresh_token_west_of_utc :
  jwt_decode (verify_only_tok fresh_claims) 1700000000 "tok" "secret" "HS256"
    = Ok fresh_claims /\
  get_current_user (verify_only_tok fresh_claims) example_settings 1700000000 (-18000) "tok"
    = Err (HTTPException 401 "Token has expired").
Proof. split; vm_compute; reflexivity. Qed.

(** C1, as the claim words it, fails: an [Authorization] header
    ["Token Bearer tok"] does not have the form ["Bearer <token>"], yet the
    middleware only tests that the header contains ["Bearer "], decodes the
    text after it and hands the request on. *)
Lemma auth_claim_as_stated_fails : ~ auth_claim_as_stated.
Proof.
  intros H.
  destruct (H (verify_only_tok fresh_claims) (fun _ => true) example_settings ["/health"]
              1700000000%Q 0%Q
              (get_request "/api/customers"
                 [("x-api-key", "default-api-key"); ("authorization", "Token Bearer tok")])
              ltac:(discriminate) eq_refl eq_refl "Token Bearer tok" eq_refl eq_refl)
    as [c Hc].
  vm_compute in Hc. discriminate.
Qed.

(** A present but empty [X-API-Key] is refused with 403 even when the
    configured key is the empty string. *)
Lemma empty_api_key_refused :
  auth_dispatch (verify_only_tok fresh_claims) (fun _ => true) empty_key_settings
    ["/health"] 1700000000 0
    (get_request "/api/customers" [("x-api-key", EmptyString)])
  = HTMLResponse 403 "Unauthorized: Invalid API key".
Proof. vm_compute. reflexivity. Qed.

(** The [try] block hands the request on only with a decoded payload. *)
Lemma auth_try_call_next
    (jwt_verify : string -> string -> string -> option pdict) (fts : Q -> bool)
    (st : settings) (now off : Q) (h : string) (u : option pdict) :
  auth_try jwt_verify fts st now off h = Ok (CallNext u) ->
  exists token p,
    contains "Bearer " h = true /\
    list_index1 (py_split "Bearer " h) = Ok token /\
    jwt_decode jwt_verify now token (JWT_SECRET_KEY st) (JWT_ALGORITHM st) = Ok p /\
    u = Some p.
Proof.
  unfold auth_try. destruct (contains "Bearer " h) eqn:Hc; cbn [negb]; [|discriminate].
  destruct (list_index1 (py_split "Bearer " h)) as [token|] eqn:Hi; cbn [rbind];
    [|discriminate].
  destruct (jwt_decode jwt_verify now token (JWT_SECRET_KEY st) (JWT_ALGORITHM st))
    as [p|] eqn:Hd; cbn [rbind]; [|discriminate].
  destruct (py_lt_float (dict_get "exp" p) (utcnow_timestamp now off)) as [b|];
    cbn [rbind]; [|discriminate].
  destruct b.
  - destruct (py_timestamp (dict_get "exp" p)) as [x|]; cbn [rbind]; [|discriminate].
    destruct (fts x); discriminate.
  - intros Heq. inversion Heq. exists token, p. auto.
Qed.

(** When decoding fails, the [try] block never produces [CallNext]. *)
Lemma auth_try_decode_error
    (jwt_verify : string -> string -> string -> option pdict) (fts : Q -> bool)
    (st : settings) (now off : Q) (h token : string) (e : exn) :
  list_index1 (py_split "Bearer " h) = Ok token ->
  jwt_decode jwt_verify now token (JWT_SECRET_KEY st) (JWT_ALGORITHM st) = Err e ->
  auth_try jwt_verify fts st now off h = Err e \/
  auth_try jwt_verify fts st now off h = Ok (HTMLResponse 401 "Unauthorized: Invalid authorization format").
Proof.
  intros Hi Hd. unfold auth_try.
  destruct (contains "Bearer " h); cbn [negb]; [|right; reflexivity].
  left. rewrite Hi. cbn [rbind]. rewrite Hd. reflexivity.
Qed.

Lemma jwt_decode_expired
    (jwt_verify : string -> string -> string -> option pdict)
    (now : Q) (token key alg : string) (p : pdict) (e : Z) :
  jwt_verify token key alg = Some p ->
  dict_get "exp" p = Some (PNum e) -> (inject_Z e <= now)%Q ->
  jwt_decode jwt_verify now token key alg = Err (PyJWTError ExpiredSignatureError).
Proof.
  intros Hv He Hle. unfold jwt_decode. rewrite Hv, He. cbn [py_int].
  rewrite (Qle_bool_true _ _ Hle). reflexivity.
Qed.

(** C1 (amended): for a request that is not OPTIONS and whose path starts
    with no public path, [dispatch]
    - answers 403 when [X-API-Key] is absent, empty or not [API_KEY];
    - with a valid key, answers 401 when [Authorization] is missing or
      empty, when it does not contain ["Bearer "], when the token
      [auth_header.split("Bearer ")[1]] (the text between the first
      ["Bearer "] and the next one, or the end of the header) fails
      [jwt.decode] (any exception, e.g. a bad signature or an integer [exp]
      not after the real time) or decodes to a payload without [exp];
    - hands the request on only with a valid key, a header containing
      ["Bearer "] and a decoded payload, stored as [request.state.user]. *)
Theorem auth_dispatch_protected_paths
    (jwt_verify : string -> string -> string -> option pdict) (fts : Q -> bool)
    (st : settings) (ps : list string) (now off : Q) (req : request)
    (Hm : method req <> "OPTIONS")
    (Hp : existsb (fun p => starts_with p (path req)) ps = false) :
  let out := auth_dispatch jwt_verify fts st ps now off req in
  ((forall k, header_get "x-api-key" (headers req) = Some k ->
              k = EmptyString \/ k <> API_KEY st) ->
   out = HTMLResponse 403 "Unauthorized: Invalid API key") /\
  (header_get "x-api-key" (headers req) = Some (API_KEY st) ->
   API_KEY st <> EmptyString ->
   (header_get "authorization" (headers req) = None ->
    out = HTMLResponse 401 "Unauthorized: Missing JWT token") /\
   (forall h, header_get "authorization" (headers req) = Some h ->
    contains "Bearer " h = false -> exists c, out = HTMLResponse 401 c) /\
   (forall h token, header_get "authorization" (headers req) = Some h ->
    list_index1 (py_split "Bearer " h) = Ok token ->
    (forall e, jwt_decode jwt_verify now token (JWT_SECRET_KEY st) (JWT_ALGORITHM st)
               = Err e -> exists c, out = HTMLResponse 401 c) /\
    (forall p e, jwt_verify token (JWT_SECRET_KEY st) (JWT_ALGORITHM st) = Some p ->
     dict_get "exp" p = Some (PNum e) -> (inject_Z e <= now)%Q ->
     exists c, out = HTMLResponse 401 c) /\
    (forall p, jwt_verify token (JWT_SECRET_KEY st) (JWT_ALGORITHM st) = Some p ->
     dict_get "exp" p = None -> exists c, out = HTMLResponse 401 c))) /\
  (forall u, out = CallNext u ->
   exists h token p,
     header_get "x-api-key" (headers req) = Some (API_KEY st) /\
     API_KEY st <> EmptyString /\
     header_get "authorization" (headers req) = Some h /\
     contains "Bearer " h = true /\
     list_index1 (py_split "Bearer " h) = Ok token /\
     jwt_decode jwt_verify now token (JWT_SECRET_KEY st) (JWT_ALGORITHM st) = Ok p /\
     u = Some p).
Proof.
  cbv zeta. rewrite (auth_dispatch_protected _ _ _ _ _ _ _ Hm Hp).
  split; [|split].
  - (* 403 *)
    intros Hk. destruct (header_get "x-api-key" (headers req)) as [k|]; [|reflexivity].
    destruct (Hk k eq_refl) as [-> | Hne]; [reflexivity|].
    rewrite (proj2 (String.eqb_neq _ _) Hne), orb_true_r. reflexivity.
  - intros Hkey Hne. rewrite Hkey, (proj2 (String.eqb_neq _ _) Hne), String.eqb_refl.
    cbn [orb negb].
    split; [|split].
    + intros Ha. rewrite Ha. reflexivity.
    + intros h Ha Hc. rewrite Ha. destruct h as [|a h']; [eexists; reflexivity|].
      unfold auth_try at 1. rewrite Hc. cbn [negb]. eexists; reflexivity.
    + intros h token Ha Hi.
      assert (Hdec : forall e,
                jwt_decode jwt_verify now token (JWT_SECRET_KEY st) (JWT_ALGORITHM st) = Err e ->
                exists c,
                  match h with
                  | EmptyString => HTMLResponse 401 "Unauthorized: Missing JWT token"
                  | String _ _ =>
                      match auth_try jwt_verify fts st now off h with
                      | Ok r => r
                      | Err (PyJWTError e0) =>
                          HTMLResponse 401 ("Unauthorized: Invalid JWT token - "
                                            ++ exn_str (PyJWTError e0))
                      | Err e0 =>
                          HTMLResponse 401 ("Unauthorized: Error processing JWT token - "
                                            ++ exn_str e0)
                      end
                  end = HTMLResponse 401 c).
      { intros e Hd. destruct h as [|a h']; [eexists; reflexivity|].
        destruct (auth_try_decode_error jwt_verify fts st now off _ _ e Hi Hd) as [Ht|Ht];
          rewrite Ht; [destruct e; eexists; reflexivity | eexists; reflexivity]. }
      rewrite Ha. split; [|split].
      * exact Hdec.
      * intros p e Hv He Hle. apply (Hdec (PyJWTError ExpiredSignatureError)).
        exact (jwt_decode_expired _ _ _ _ _ _ _ Hv He Hle).
      * intros p Hv Hn. destruct h as [|a h']; [eexists; reflexivity|].
        unfold auth_try at 1.
        destruct (contains "Bearer " (String a h')); cbn [negb]; [|eexists; reflexivity].
        rewrite Hi. cbn [rbind].
        unfold jwt_decode at 1. rewrite Hv, Hn. cbn [rbind]. rewrite Hn.
        eexists; reflexivity.
  - intros u.
    destruct (header_get "x-api-key" (headers req)) as [k|] eqn:Hk; [|discriminate].
    destruct (String.eqb k EmptyString) eqn:He; cbn [orb]; [discriminate|].
    destruct (String.eqb k (API_KEY st)) eqn:Hq; cbn [negb]; [|discriminate].
    apply String.eqb_eq in Hq. subst k. apply String.eqb_neq in He.
    destruct (header_get "authorization" (headers req)) as [h|] eqn:Ha; [|discriminate].
    destruct h as [|a h']; [discriminate|].
    destruct (auth_try jwt_verify fts st now off (String a h')) as [r|e] eqn:Ht.
    + intros ->.
      destruct (auth_try_call_next _ _ _ _ _ _ _ Ht) as (token & p & H1 & H2 & H3 & H4).
      exists (String a h'), token, p. auto 7.
    + destruct e as [j| | | |]; discriminate.
Qed.

Lemma auth_dispatch_protected_paths_witness :
  "GET" <> "OPTIONS" /\
  existsb (fun p => starts_with p "/api/customers") ["/health"] = false /\
  auth_dispatch (verify_only_tok fresh_claims) (fun _ => true) example_settings ["/health"]
    1700000000 0 (get_request "/api/customers" [("x-api-key", "wrong")])
  = HTMLResponse 403 "Unauthorized: Invalid API key".
Proof.
  split; [discriminate|]. split; [reflexivity|].
  destruct (auth_dispatch_protected_paths (verify_only_tok fresh_claims) (fun _ => true)
              example_settings ["/health"] 1700000000%Q 0%Q
              (get_request "/api/customers" [("x-api-key", "wrong")])
              ltac:(discriminate) eq_refl) as [H403 _].
  apply H403. intros k Hk. right. cbn in Hk. inversion Hk. discriminate.
Defined.

(** The token is the text between the first ["Bearer "] and the next one. *)
Lemma bearer_token_between_occurrences :
  list_index1 (py_split "Bearer " "Bearer abc Bearer xyz") = Ok "abc " /\
  list_index1 (py_split "Bearer " "Token Bearer tok") = Ok "tok".
Proof. split; reflexivity. Qed.

(** [int()] on JSON values, as PyJWT applies it to [exp]. *)
Lemma py_int_examples :
  py_int (PStr " -1_000 ") = Ok (-1000)%Z /\ py_int (PStr "007") = Ok 7%Z /\
  py_int (PStr "1__0") = Err ValueError /\ py_int (PStr "- 1") = Err ValueError /\
  py_int (PStr "12.5") = Err ValueError /\
  py_int (PFloat (FFinite (-7#2))) = Ok (-3)%Z /\ py_int (PFloat (FFinite (7#2))) = Ok 3%Z /\
  py_int (PFloat (FInf false)) = Err OverflowError /\ py_int (PFloat FNaN) = Err ValueError /\
  py_int PNone = Err TypeError /\ py_int (PList []) = Err TypeError.
Proof. repeat split; vm_compute; reflexivity. Qed.

(* ------------------------------------------------------------------ *)
(** ** Rate limiter *)

Lemma rl_counts1_lookup (counts : gmap string (list Q)) (ip : string) :
  default [] ((match counts !! ip with
               | None => <[ip := []]> counts
               | Some _ => counts
               end) !! ip) = default [] (counts !! ip).
Proof.
  destruct (counts !! ip) eqn:E.
  - rewrite E. reflexivity.
  - rewrite lookup_insert_eq. reflexivity.
Qed.

Lemma rl_counts1_lookup_ne (counts : gmap string (list Q)) (ip ip' : string) :
  ip <> ip' ->
  (match counts !! ip with
   | None => <[ip := []]> counts
   | Some _ => counts
   end) !! ip' = counts !! ip'.
Proof.
  intros Hne. destruct (counts !! ip); [reflexivity|].
  apply lookup_insert_ne. exact Hne.
Qed.

(** The decision of [rl_dispatch], written out. *)
Lemma rl_dispatch_eq (limit : Z) (counts : gmap string (list Q)) (now : Q) (req : request) :
  path req <> "/health" ->
  let ip := client_ip req in
  let pruned := prune now (default [] (counts !! ip)) in
  fst (rl_dispatch limit counts now req) =
    (if (limit <=? Z.of_nat (List.length pruned))%Z
     then RLReturnHTTPException 429 "Too many requests" else RLCallNext) /\
  (forall ip', ip' <> ip ->
     snd (rl_dispatch limit counts now req) !! ip' = counts !! ip') /\
  snd (rl_dispatch limit counts now req) !! ip =
    Some (if (limit <=? Z.of_nat (List.length pruned))%Z
          then pruned else (pruned ++ [now])%list).
Proof.
  intros Hp ip pruned. unfold rl_dispatch.
  rewrite (proj2 (String.eqb_neq _ _) Hp). fold ip.
  rewrite rl_counts1_lookup. fold pruned.
  destruct (limit <=? Z.of_nat (List.length pruned))%Z; cbn [fst snd];
    (split; [reflexivity|split]).
  - intros ip' Hne. rewrite lookup_insert_ne by congruence.
    apply rl_counts1_lookup_ne. congruence.
  - apply lookup_insert_eq.
  - intros ip' Hne. rewrite !lookup_insert_ne by congruence.
    apply rl_counts1_lookup_ne. congruence.
  - apply lookup_insert_eq.
Qed.

(** C3, as the claim words it, fails at the 60-second boundary: a timestamp
    recorded exactly 60 seconds ago is discarded by the code
    ([current_time - t < 60] keeps it only when strictly younger). *)
Lemma rate_limit_claim_as_stated_fails : ~ rate_limit_claim_as_stated.
Proof.
  intros H.
  specialize (H 1%Z (<["10.0.0.1" := [0%Q]]> ∅) 60%Q (get_request "/api/customers" [])
                ltac:(discriminate)).
  destruct H as [H _].
  assert (Hlt : (Z.of_nat (List.length
                   (List.filter (fun t => negb (Qltb 60 (60 - t)))
                      (default [] ((<["10.0.0.1" := [0%Q]]> (∅ : gmap string (list Q)))
                                     !! client_ip (get_request "/api/customers" [])))))
                 < 1)%Z).
  { apply H. vm_compute. reflexivity. }
  vm_compute in Hlt. discriminate.
Qed.

(** C3 (amended): requests to ["/health"] are handed on and not recorded.
    For any other path, with [pruned] the IP's timestamps [t] with
    [current_time - t < 60] (those recorded 60 or more seconds ago are
    dropped), the request is handed on exactly when fewer than
    [limit_per_minute] remain, and then [pruned ++ [current_time]] is
    stored for the IP; the lists of the other IPs are unchanged, and the
    decision depends only on the list of the request's own IP. *)
Theorem rl_dispatch_sliding_window
    (limit : Z) (counts : gmap string (list Q)) (now : Q) (req : request) :
  (path req = "/health" -> rl_dispatch limit counts now req = (RLCallNext, counts)) /\
  (path req <> "/health" ->
   let ip := client_ip req in
   let pruned := prune now (default [] (counts !! ip)) in
   (fst (rl_dispatch limit counts now req) = RLCallNext <->
    (Z.of_nat (List.length pruned) < limit)%Z) /\
   (fst (rl_dispatch limit counts now req) = RLCallNext ->
    snd (rl_dispatch limit counts now req) !! ip = Some (pruned ++ [now])%list) /\
   (forall ip', ip' <> ip -> snd (rl_dispatch limit counts now req) !! ip' = counts !! ip')) /\
  (forall counts' : gmap string (list Q),
     counts' !! client_ip req = counts !! client_ip req ->
     fst (rl_dispatch limit counts' now req) = fst (rl_dispatch limit counts now req)).
Proof.
  split; [|split].
  - intros Hp. unfold rl_dispatch. rewrite Hp. reflexivity.
  - intros Hp ip pruned.
    destruct (rl_dispatch_eq limit counts now req Hp) as (Hf & Hne & Hip).
    fold ip pruned in Hf, Hne, Hip.
    split; [|split].
    + rewrite Hf. destruct (Z.leb_spec limit (Z.of_nat (List.length pruned)));
        split; intros H'; try discriminate; try lia; reflexivity.
    + rewrite Hf, Hip. destruct (limit <=? Z.of_nat (List.length pruned))%Z;
        [discriminate|reflexivity].
    + exact Hne.
  - intros counts' Hc.
    destruct (String.eqb (path req) "/health") eqn:Hh.
    + apply String.eqb_eq in Hh. unfold rl_dispatch. rewrite Hh. reflexivity.
    + apply String.eqb_neq in Hh.
      rewrite (proj1 (rl_dispatch_eq limit counts' now req Hh)),
              (proj1 (rl_dispatch_eq limit counts now req Hh)), Hc.
      reflexivity.
Qed.

(** C4 (code bug): with [limit_per_minute = 1] and one request from the
    same IP ten seconds earlier, [dispatch] [return]s an [HTTPException]
    instance instead of a response; Starlette then calls that object as an
    ASGI response, which raises [TypeError], and the client gets status 500
    rather than 429. *)
Theorem rl_over_limit_returns_exception_object :
  fst (rl_dispatch 1 (<["10.0.0.1" := [50%Q]]> ∅) 60%Q (get_request "/api/customers" []))
    = RLReturnHTTPException 429 "Too many requests" /\
  rl_client_status 200
    (fst (rl_dispatch 1 (<["10.0.0.1" := [50%Q]]> ∅) 60%Q (get_request "/api/customers" [])))
    = 500%Z.
Proof. split; vm_compute; reflexivity. Qed.

Lemma prune_length (now : Q) (ts : list Q) :
  (List.length (prune now ts) <= List.length ts)%nat.
Proof. unfold prune. apply List.filter_length_le. Qed.

Lemma rl_dispatch_bounded (limit : Z) (counts : gmap string (list Q)) (now : Q)
    (req : request) :
  (0 <= limit)%Z -> rl_bounded limit counts ->
  rl_bounded limit (snd (rl_dispatch limit counts now req)).
Proof.
  intros Hl Hb ip' ts Hts.
  destruct (String.eqb (path req) "/health") eqn:Hh.
  - apply String.eqb_eq in Hh. unfold rl_dispatch in Hts. rewrite Hh in Hts.
    exact (Hb ip' ts Hts).
  - apply String.eqb_neq in Hh.
    destruct (rl_dispatch_eq limit counts now req Hh) as (_ & Hne & Hip).
    destruct (String.eqb ip' (client_ip req)) eqn:Ei.
    + apply String.eqb_eq in Ei. subst ip'. rewrite Hip in Hts.
      assert (Hold : (Z.of_nat (List.length (default [] (counts !! client_ip req))) <= limit)%Z).
      { destruct (counts !! client_ip req) as [l|] eqn:El; cbn [default].
        - exact (Hb _ _ El).
        - cbn. exact Hl. }
      pose proof (prune_length now (default [] (counts !! client_ip req))) as Hpl.
      destruct (Z.leb_spec limit
                  (Z.of_nat (List.length (prune now (default [] (counts !! client_ip req))))))
        as [Hge|Hlt]; inversion Hts; subst ts.
      * lia.
      * rewrite List.length_app. cbn [List.length]. lia.
    + apply String.eqb_neq in Ei. rewrite (Hne ip' Ei) in Hts. exact (Hb ip' ts Hts).
Qed.

(** C9: from the empty [request_counts] of [__init__], after any sequence of
    calls every IP's list holds at most [limit_per_minute] timestamps (for a
    non-negative limit), and a request turned away is not recorded: the IP
    keeps just its pruned list. *)
Theorem rl_state_bounded (limit : Z) (Hlim : (0 <= limit)%Z) :
  (forall reqs, rl_bounded limit (rl_run limit ∅ reqs)) /\
  (forall counts now req,
     path req <> "/health" ->
     fst (rl_dispatch limit counts now req) <> RLCallNext ->
     snd (rl_dispatch limit counts now req) !! client_ip req
       = Some (prune now (default [] (counts !! client_ip req)))).
Proof.
  split.
  - intros reqs.
    assert (Hgen : forall c, rl_bounded limit c -> rl_bounded limit (rl_run limit c reqs)).
    { induction reqs as [|[t r] rest IH]; intros c Hc; cbn [rl_run]; [exact Hc|].
      apply IH. apply rl_dispatch_bounded; assumption. }
    apply Hgen. intros ip ts H. rewrite lookup_empty in H. discriminate.
  - intros counts now req Hh Hrej.
    destruct (rl_dispatch_eq limit counts now req Hh) as (Hf & _ & Hip).
    rewrite Hip. rewrite Hf in Hrej.
    destruct (limit <=? _)%Z; [reflexivity|]. exfalso. apply Hrej. reflexivity.
Qed.

Lemma rl_state_bounded_witness :
  (0 <= 100)%Z /\
  rl_bounded 100 (rl_run 100 ∅ [(0%Q, get_request "/api/customers" []);
                                (1%Q, get_request "/api/customers" [])]).
Proof.
  split; [lia|].
  exact (proj1 (rl_state_bounded 100 ltac:(lia))
           [(0%Q, get_request "/api/customers" []); (1%Q, get_request "/api/customers" [])]).
Defined.

(* ------------------------------------------------------------------ *)
(** ** Dicts *)

Lemma dict_get_set (k k' : string) (v : pv) (d : pdict) :
  dict_get k (dict_set k' v d) = if String.eqb k k' then Some v else dict_get k d.
Proof.
  induction d as [|[k0 v0] d IH]; cbn.
  - reflexivity.
  - destruct (String.eqb k' k0) eqn:E1.
    + apply String.eqb_eq in E1. subst k0. cbn. destruct (String.eqb k k'); reflexivity.
    + cbn. destruct (String.eqb k k0) eqn:E2.
      * apply String.eqb_eq in E2. subst k0.
        destruct (String.eqb k k') eqn:E3; [|reflexivity].
        apply String.eqb_eq in E3. subst k'. rewrite String.eqb_refl in E1. discriminate.
      * exact IH.
Qed.

Lemma dict_get_set_eq (k : string) (v : pv) (d : pdict) :
  dict_get k (dict_set k v d) = Some v.
Proof. rewrite dict_get_set, String.eqb_refl. reflexivity. Qed.

Lemma dict_get_app (k : string) (d1 d2 : pdict) :
  dict_get k (app d1 d2) =
  match dict_get k d1 with Some v => Some v | None => dict_get k d2 end.
Proof.
  induction d1 as [|[k0 v0] d1 IH]; cbn; [reflexivity|].
  destruct (String.eqb k k0); [reflexivity|exact IH].
Qed.

(** [d.update(u)]: the last binding of a key in [u] wins. *)
Lemma dict_get_update (k : string) (d u : pdict) :
  dict_get k (dict_update d u) =
  match dict_get k (rev u) with Some v => Some v | None => dict_get k d end.
Proof.
  revert d. induction u as [|[k0 v0] u IH]; intros d; [reflexivity|].
  unfold dict_update in *. cbn [fold_left fst snd]. rewrite IH.
  cbn [rev]. rewrite dict_get_app, dict_get_set. cbn.
  destruct (dict_get k (rev u)); [reflexivity|].
  destruct (String.eqb k k0); reflexivity.
Qed.

Lemma dict_del_absent (k : string) (d : pdict) :
  dict_get k d = None -> dict_del k d = d.
Proof.
  induction d as [|[k0 v0] d IH]; cbn; [reflexivity|].
  destruct (String.eqb k k0); [discriminate|]. intros H. rewrite (IH H). reflexivity.
Qed.

Lemma dict_del_set_absent (k : string) (v : pv) (d : pdict) :
  dict_get k d = None -> dict_del k (dict_set k v d) = d.
Proof.
  induction d as [|[k0 v0] d IH]; cbn.
  - rewrite String.eqb_refl. reflexivity.
  - destruct (String.eqb k k0) eqn:E; [discriminate|].
    intros H. cbn. rewrite E, (IH H). reflexivity.
Qed.

(* ------------------------------------------------------------------ *)
(** ** The search loop of [sync_file_changes] *)

Lemma first_match_some (f : string) (l : list pv) (i : nat) (d : pdict) :
  first_match f l = Some (i, d) ->
  l !! i = Some (PDict d) /\ matches_name f (PDict d) = true.
Proof.
  revert i. induction l as [|v l IH]; intros i H; [discriminate|].
  cbn in H. destruct v as [| | | | |dv|];
    try (destruct (first_match f l) as [[j e]|] eqn:E; [|discriminate];
         cbn in H; injection H as <- <-; exact (IH j eq_refl)).
  destruct (matches_name f (PDict dv)) eqn:M.
  - injection H as <- <-. split; [reflexivity|exact M].
  - destruct (first_match f l) as [[j e]|] eqn:E; [|discriminate].
    cbn in H. injection H as <- <-. exact (IH j eq_refl).
Qed.

Lemma first_match_insert (f : string) (l : list pv) (i : nat) (d d' : pdict) :
  first_match f l = Some (i, d) -> matches_name f (PDict d') = true ->
  first_match f (<[i := PDict d']> l) = Some (i, d').
Proof.
  revert i. induction l as [|v l IH]; intros i H M; [discriminate|].
  destruct i as [|i].
  - change (first_match f (PDict d' :: l) = Some (0%nat, d')).
    cbn [first_match]. rewrite M. reflexivity.
  - change (first_match f (v :: <[i := PDict d']> l) = Some (S i, d')).
    cbn [first_match] in H |- *. destruct v as [| | | | |dv|];
      try (destruct (first_match f l) as [[j e]|] eqn:E; [|discriminate];
           cbn in H; injection H as -> ->; rewrite (IH i eq_refl M); reflexivity).
    destruct (matches_name f (PDict dv)) eqn:Mv; [discriminate|].
    destruct (first_match f l) as [[j e]|] eqn:E; [|discriminate].
    cbn in H. injection H as -> ->. rewrite (IH i eq_refl M). reflexivity.
Qed.

(* ------------------------------------------------------------------ *)
(** ** Rows, [repo.update] and the commit *)

Lemma find_update_row (pk : Z) (g : submission -> submission) (db : list submission)
    (sid : string) :
  (forall s, submission_id (g s) = submission_id s) ->
  find_submission (update_row pk g db) sid =
  option_map (fun s => if Z.eqb (submission_pk s) pk then g s else s)
    (find_submission db sid).
Proof.
  intros Hg. unfold find_submission, update_row.
  induction db as [|s db IH]; [reflexivity|]. cbn.
  destruct (Z.eqb (submission_pk s) pk) eqn:E; rewrite ?Hg;
    destruct (String.eqb (submission_id s) sid); cbn; rewrite ?E; auto.
Qed.

Lemma find_submission_in (db : list submission) (sid : string) (s : submission) :
  find_submission db sid = Some s -> In s db /\ submission_id s = sid.
Proof.
  intros H. unfold find_submission in H.
  pose proof (find_some _ _ H) as [H1 H2]. apply String.eqb_eq in H2. auto.
Qed.

Lemma nodup_pk_eq (db : list submission) (s1 s2 : submission) :
  NoDup (map submission_pk db) -> In s1 db -> In s2 db ->
  submission_pk s1 = submission_pk s2 -> s1 = s2.
Proof.
  induction db as [|s db IH]; intros Hn H1 H2 Hk; [destruct H1|].
  inversion Hn as [|? ? Hnot Hn']; subst.
  destruct H1 as [<-|H1], H2 as [<-|H2]; auto.
  - exfalso. apply Hnot. apply list_elem_of_In. rewrite Hk. apply in_map. exact H2.
  - exfalso. apply Hnot. apply list_elem_of_In. rewrite <- Hk. apply in_map. exact H1.
Qed.

Lemma update_row_id (pk : Z) (db : list submission) :
  update_row pk (fun s => s) db = db.
Proof.
  unfold update_row. induction db as [|s db IH]; [reflexivity|].
  cbn. rewrite IH. destruct (Z.eqb (submission_pk s) pk); reflexivity.
Qed.

Lemma update_row_update_row (pk : Z) (g1 g2 : submission -> submission)
    (db : list submission) :
  (forall s, submission_pk (g1 s) = submission_pk s) ->
  update_row pk g2 (update_row pk g1 db) = update_row pk (fun s => g2 (g1 s)) db.
Proof.
  intros Hg. unfold update_row. rewrite map_map. apply map_ext. intros s.
  destruct (Z.eqb (submission_pk s) pk) eqn:E; rewrite ?Hg, ?E; reflexivity.
Qed.

(** The calls of one method on one row commit as one map over the rows;
    the row's [s3_file_links] is kept when every written value is a
    [document_names] value. *)
Lemma commit_as_update_row (pk : Z) (us : list repo_update) (db : list submission) :
  (forall u, In u us -> ru_pk u = pk) ->
  exists g,
    (forall s, submission_pk (g s) = submission_pk s /\ submission_id (g s) = submission_id s) /\
    ((forall u, In u us -> ru_ref u = Fresh -> exists v, ru_value u = ColDocs v) ->
     forall s, s3_file_links (g s) = s3_file_links s) /\
    commit_updates db us = update_row pk g db.
Proof.
  revert db. induction us as [|u us IH]; intros db Hpk.
  - exists (fun s => s). split; [auto|]. split; [auto|].
    symmetry. apply update_row_id.
  - unfold commit_updates. cbn [fold_left].
    destruct (IH (flush_update db u)) as (g & Hg1 & Hg2 & Hg3);
      [intros w Hw; apply Hpk; right; exact Hw|].
    unfold commit_updates in Hg3. rewrite Hg3.
    unfold flush_update. rewrite (Hpk u (or_introl eq_refl)).
    destruct (ru_ref u) eqn:Er.
    + exists g. split; [exact Hg1|]. split; [|reflexivity].
      intros Hd. apply Hg2. intros w Hw. apply Hd. right. exact Hw.
    + exists (fun s => g (apply_column (ru_value u) s)).
      split; [|split].
      * intros s. rewrite (proj1 (Hg1 _)), (proj2 (Hg1 _)).
        destruct (ru_value u); split; reflexivity.
      * intros Hd s. rewrite Hg2.
        -- destruct (Hd u (or_introl eq_refl) Er) as [v Hv]. rewrite Hv. reflexivity.
        -- intros w Hw. apply Hd. right. exact Hw.
      * apply update_row_update_row. intros s. destruct (ru_value u); reflexivity.
Qed.

Lemma commit_loaded (db : list submission) (us : list repo_update) :
  (forall u, In u us -> ru_ref u = Loaded) -> commit_updates db us = db.
Proof.
  unfold commit_updates. revert db. induction us as [|u us IH]; intros db H; [reflexivity|].
  cbn [fold_left]. unfold flush_update at 2. rewrite (H u (or_introl eq_refl)).
  apply IH. intros w Hw. apply H. right. exact Hw.
Qed.

(** C8: when the submission id resolves to no row, or [file_info] has no
    (or an empty) [filename] or [s3_key], [sync_file_changes] returns a
    dict with status ["error"], issues no [repo.update] call, and the
    stored rows are unchanged. *)
Theorem sync_file_changes_error_no_update (bucket now_iso generated_version : string)
    (db : list submission) (sid : string) (fi : file_info) :
  find_submission db sid = None \/
  fi_filename fi = None \/ fi_filename fi = Some EmptyString \/
  fi_s3_key fi = None \/ fi_s3_key fi = Some EmptyString ->
  dict_get "status" (fst (run_sync bucket now_iso generated_version db sid fi))
    = Some (PStr "error") /\
  snd (sync_file_changes bucket now_iso generated_version db sid fi) = [] /\
  snd (run_sync bucket now_iso generated_version db sid fi) = db.
Proof.
  intros H. unfold run_sync, sync_file_changes.
  destruct (find_submission db sid) as [sub|] eqn:Hf; [|cbn; auto].
  destruct H as [H|H]; [discriminate|].
  destruct (fi_filename fi) as [f|] eqn:E1, (fi_s3_key fi) as [k|] eqn:E2;
    try (cbn; auto; fail).
  assert (Hb : (String.eqb f EmptyString || String.eqb k EmptyString)%bool = true).
  { destruct H as [H|[H|[H|H]]]; try discriminate; injection H as ->;
      rewrite ?String.eqb_refl, ?orb_true_r; reflexivity. }
  rewrite Hb. cbn. auto.
Qed.

Lemma sync_file_changes_error_no_update_witness :
  find_submission [] "s1" = None /\
  snd (run_sync "bucket" "2024-01-01T00:00:00" "v1704067200" [] "s1"
         {| fi_category := None; fi_filename := Some "a.pdf"; fi_s3_key := Some "k";
            fi_size := None; fi_content_type := None; fi_version := None |}) = [].
Proof.
  split; [reflexivity|].
  apply (sync_file_changes_error_no_update "bucket" "2024-01-01T00:00:00" "v1704067200" [] "s1"
           {| fi_category := None; fi_filename := Some "a.pdf"; fi_s3_key := Some "k";
              fi_size := None; fi_content_type := None; fi_version := None |}).
  left. reflexivity.
Defined.

(* ------------------------------------------------------------------ *)
(** ** [sync_file_changes] on an existing entry *)

(** C5: when the category of the stored row already holds an entry named
    [filename], [sync_file_changes] reports ["File updated successfully"]
    and passes to [repo.update] a links dict in which that entry has the
    claimed content (its [versions] list extended by exactly one copy of
    the old entry without [versions], and [original_name], [s3_key],
    [url], [updated_at] and [version] overwritten); but that dict is the
    loaded [s3_file_links] object itself, mutated in place, so the commit
    leaves the stored rows unchanged. *)
Theorem sync_update_not_persisted (bucket now_iso generated_version : string)
    (db : list submission) (sid : string) (fi : file_info) (sub : submission)
    (filename s3_key : string) (files : list pv) (idx : nat) (d : pdict) :
  find_submission db sid = Some sub ->
  fi_filename fi = Some filename -> filename <> EmptyString ->
  fi_s3_key fi = Some s3_key -> s3_key <> EmptyString ->
  dict_get (default "files" (fi_category fi)) (default [] (s3_file_links sub))
    = Some (PList files) ->
  first_match filename files = Some (idx, d) ->
  (dict_get "versions" d = None \/ exists vs, dict_get "versions" d = Some (PList vs)) ->
  let res := sync_file_changes bucket now_iso generated_version db sid fi in
  dict_get "status" (fst res) = Some (PStr "success") /\
  dict_get "message" (fst res) = Some (PStr "File updated successfully") /\
  (exists links' d',
     snd res = [{| ru_pk := submission_pk sub; ru_ref := Loaded;
                   ru_value := ColLinks links' |}] /\
     entry_in (set_links links' sub) (default "files" (fi_category fi)) filename = Some d' /\
     versions_of d' = app (versions_of d) [PDict (dict_del "versions" d)] /\
     dict_get "original_name" d' = Some (PStr filename) /\
     dict_get "s3_key" d' = Some (PStr s3_key) /\
     dict_get "url" d' = Some (PStr ("https://" ++ bucket ++ ".s3.amazonaws.com/" ++ s3_key)) /\
     dict_get "updated_at" d' = Some (PStr now_iso) /\
     dict_get "version" d' =
       Some (match fi_version fi with Some v => v | None => PStr generated_version end)) /\
  snd (run_sync bucket now_iso generated_version db sid fi) = db.
Proof.
  intros Hf E1 Hn1 E2 Hn2 Hc Hm Hv res.
  assert (Hl : links_ref sub = Loaded).
  { unfold links_ref. destruct (s3_file_links sub) as [[|kv l]|]; cbn in Hc;
      first [discriminate | reflexivity]. }
  assert (Hmem : dict_mem (default "files" (fi_category fi)) (default [] (s3_file_links sub)) = true).
  { unfold dict_mem. rewrite Hc. reflexivity. }
  assert (Hb : (String.eqb filename EmptyString || String.eqb s3_key EmptyString)%bool = false).
  { apply orb_false_iff. split; apply String.eqb_neq; assumption. }
  pose proof (first_match_some _ _ _ _ Hm) as [Hidx Hmd].
  set (category := default "files" (fi_category fi)) in *.
  set (links0 := default [] (s3_file_links sub)) in *.
  subst res. unfold run_sync, sync_file_changes. rewrite Hf.
  cbv zeta. fold category links0. rewrite Hmem, E1, E2, Hb, Hc, Hm.
  (* ex1 / copy *)
  assert (Hex : exists vs,
    dict_get "versions" (if dict_mem "versions" d then d
                         else dict_set "versions" (PList []) d) = Some (PList vs) /\
    dict_del "versions" (if dict_mem "versions" d then d
                         else dict_set "versions" (PList []) d) = dict_del "versions" d /\
    versions_of d = vs).
  { destruct Hv as [Hv|[vs Hv]]; unfold dict_mem; rewrite Hv.
    - exists []. rewrite dict_get_set_eq, dict_del_set_absent, dict_del_absent by exact Hv.
      unfold versions_of. rewrite Hv. auto.
    - exists vs. unfold versions_of. rewrite Hv. auto. }
  destruct Hex as (vs & Hvs & Hdel & Hvd).
  set (ex1 := if dict_mem "versions" d then d else dict_set "versions" (PList []) d) in *.
  rewrite Hvs, Hdel.
  set (info := dict_set "version" _ _).
  set (version := match fi_version fi with Some v => v | None => PStr generated_version end) in *.
  set (url := "https://" ++ bucket ++ ".s3.amazonaws.com/" ++ s3_key) in *.
  assert (Hinfo : dict_get "versions" (rev info) = None /\
                  dict_get "original_name" (rev info) = Some (PStr filename) /\
                  dict_get "s3_key" (rev info) = Some (PStr s3_key) /\
                  dict_get "url" (rev info) = Some (PStr url) /\
                  dict_get "updated_at" (rev info) = Some (PStr now_iso) /\
                  dict_get "version" (rev info) = Some version).
  { unfold info. destruct (fi_size fi), (fi_content_type fi); cbn; auto 7. }
  destruct Hinfo as (Hi1 & Hi2 & Hi3 & Hi4 & Hi5 & Hi6).
  set (ex2 := dict_update (dict_set "versions" (PList (app vs [PDict (dict_del "versions" d)])) ex1) info).
  assert (Hmx : matches_name filename (PDict ex2) = true).
  { unfold matches_name, ex2. rewrite dict_get_update, Hi2. apply String.eqb_refl. }
  rewrite Hl. cbn [fst snd].
  split; [reflexivity|]. split; [reflexivity|]. split.
  - eexists _, ex2. split; [reflexivity|].
    split.
    + unfold entry_in. cbn [s3_file_links set_links default]. unfold id. rewrite dict_get_set_eq.
      rewrite (first_match_insert _ _ _ _ _ Hm Hmx). reflexivity.
    + rewrite Hvd. unfold versions_of, ex2.
      rewrite !dict_get_update, Hi1, Hi2, Hi3, Hi4, Hi5, Hi6, dict_get_set_eq. repeat split.
  - reflexivity.
Qed.

Lemma sync_update_not_persisted_witness :
  find_submission [versioned_row] "s1" = Some versioned_row /\
  first_match "a.pdf" [PDict versioned_entry] = Some (0%nat, versioned_entry) /\
  snd (run_sync "bucket" "2024-01-01T00:00:00" "v1704067200" [versioned_row] "s1" new_upload)
    = [versioned_row].
Proof.
  split; [reflexivity|]. split; [reflexivity|].
  refine (proj2 (proj2 (proj2
    (sync_update_not_persisted "bucket" "2024-01-01T00:00:00" "v1704067200"
       [versioned_row] "s1" new_upload versioned_row "a.pdf" "submissions/s1/files/a_v2.pdf"
       [PDict versioned_entry] 0 versioned_entry eq_refl eq_refl _ eq_refl _ eq_refl eq_refl _)))).
  - discriminate.
  - discriminate.
  - right. eexists. reflexivity.
Defined.

(* ------------------------------------------------------------------ *)
(** ** Version history across the three operations *)

Lemma entry_in_links (s s' : submission) :
  s3_file_links s' = s3_file_links s ->
  forall category filename, entry_in s' category filename = entry_in s category filename.
Proof. intros H c n. unfold entry_in. rewrite H. reflexivity. Qed.

Lemma entry_in_empty (sub : submission) :
  links_ref sub = Fresh -> forall category filename, entry_in sub category filename = None.
Proof.
  unfold links_ref, entry_in. intros H c n.
  destruct (s3_file_links sub) as [[|kv l]|]; [reflexivity|discriminate|reflexivity].
Qed.

(** A map over the rows that keeps ids and links keeps every entry. *)
Lemma entry_of_update_row_keep (pk : Z) (g : submission -> submission)
    (db : list submission) :
  (forall s, submission_id (g s) = submission_id s) ->
  (forall s, s3_file_links (g s) = s3_file_links s) ->
  forall sid category filename,
    entry_of (update_row pk g db) sid category filename = entry_of db sid category filename.
Proof.
  intros Hid Hl sid c n. unfold entry_of. rewrite find_update_row by exact Hid.
  destruct (find_submission db sid) as [s|]; [|reflexivity]. cbn.
  destruct (Z.eqb (submission_pk s) pk); [apply entry_in_links, Hl|reflexivity].
Qed.

(** Rewriting the one row of a submission that has no entries loses no
    history, when primary keys are distinct. *)
Lemma history_update_row_empty (db : list submission) (sub : submission)
    (g : submission -> submission) :
  NoDup (map submission_pk db) -> In sub db ->
  (forall category filename, entry_in sub category filename = None) ->
  (forall s, submission_id (g s) = submission_id s) ->
  history_preserved db (update_row (submission_pk sub) g db).
Proof.
  intros Hpk Hin Hnone Hid sid c n d d' H1 H2 v Hv.
  unfold entry_of in H1, H2. rewrite find_update_row in H2 by exact Hid.
  destruct (find_submission db sid) as [s|] eqn:Hs; [|discriminate]. cbn in H2.
  destruct (Z.eqb_spec (submission_pk s) (submission_pk sub)) as [E|E].
  - pose proof (find_submission_in _ _ _ Hs) as [Hs' _].
    rewrite (nodup_pk_eq db s sub Hpk Hs' Hin E), Hnone in H1. discriminate.
  - rewrite H1 in H2. injection H2 as <-. exact Hv.
Qed.

Lemma history_preserved_refl (db : list submission) : history_preserved db db.
Proof. intros sid c n d d' H1 H2. rewrite H1 in H2. injection H2 as <-. auto. Qed.

Lemma sync_calls_shape (bucket now_iso generated_version : string) (db : list submission)
    (sid : string) (fi : file_info) (sub : submission) :
  find_submission db sid = Some sub ->
  forall u, In u (snd (sync_file_changes bucket now_iso generated_version db sid fi)) ->
  ru_pk u = submission_pk sub /\
  ((exists v, ru_value u = ColDocs v) \/ ru_ref u = links_ref sub).
Proof.
  intros Hf u Hin. unfold sync_file_changes in Hin. rewrite Hf in Hin. cbv zeta in Hin.
  repeat match type of Hin with
         | context [match ?x with _ => _ end] => destruct x
         end;
    cbn in Hin; repeat destruct Hin as [<-|Hin]; try contradiction;
    (split; [reflexivity|]);
    first [left; eexists; reflexivity | right; reflexivity].
Qed.

Lemma sync_history (bucket now_iso generated_version : string) (db : list submission)
    (sid : string) (fi : file_info) :
  NoDup (map submission_pk db) ->
  history_preserved db (snd (run_sync bucket now_iso generated_version db sid fi)).
Proof.
  intros Hpk. unfold run_sync.
  pose proof (sync_calls_shape bucket now_iso generated_version db sid fi) as Hshape.
  destruct (sync_file_changes bucket now_iso generated_version db sid fi) as [res us] eqn:Es.
  cbn [snd] in Hshape |- *.
  destruct (find_submission db sid) as [sub|] eqn:Hf.
  2:{ unfold sync_file_changes in Es. rewrite Hf in Es. injection Es as _ <-.
      apply history_preserved_refl. }
  specialize (Hshape sub eq_refl).
  destruct (commit_as_update_row (submission_pk sub) us db) as (g & Hg1 & Hg2 & ->);
    [intros u Hu; exact (proj1 (Hshape u Hu))|].
  destruct (links_ref sub) eqn:Hl.
  - intros sid' c n d d' H1 H2.
    rewrite entry_of_update_row_keep in H2.
    + rewrite H1 in H2. injection H2 as <-. auto.
    + intros s. exact (proj2 (Hg1 s)).
    + apply Hg2. intros u Hu Hr. destruct (proj2 (Hshape u Hu)) as [Hd|Hd]; [exact Hd|].
      rewrite Hd in Hr. discriminate.
  - apply history_update_row_empty; [exact Hpk| |exact (entry_in_empty sub Hl)|].
    + exact (proj1 (find_submission_in _ _ _ Hf)).
    + intros s. exact (proj2 (Hg1 s)).
Qed.

Lemma delete_calls_loaded (db : list submission) (sid filename category : string) :
  forall u, In u (snd (delete_file_from_db db sid filename category)) -> ru_ref u = Loaded.
Proof.
  unfold delete_file_from_db.
  destruct (find_submission db sid) as [sub|]; [|intros ? []].
  cbv zeta.
  destruct (dict_get category (default [] (s3_file_links sub))) as [v|] eqn:Hc;
    [|intros ? []].
  assert (Hl : links_ref sub = Loaded).
  { unfold links_ref. destruct (s3_file_links sub) as [[|kv l]|];
      cbn in Hc; first [discriminate | reflexivity]. }
  destruct v as [| | | |files| |]; try (intros ? []).
  destruct (negb (existsb (matches_name filename) files)); [intros ? []|].
  destruct (existsb (String.eqb filename) (default [] (document_names sub))) eqn:Hd.
  - assert (Hdr : docs_ref sub = Loaded).
    { unfold docs_ref. destruct (document_names sub) as [[|x l]|];
        cbn in Hd; first [discriminate | reflexivity]. }
    intros u Hu. cbn in Hu. destruct Hu as [<-|[<-|[]]]; assumption.
  - intros u Hu. cbn in Hu. destruct Hu as [<-|[]]. exact Hl.
Qed.

Lemma links_clean_nil : links_clean [].
Proof. intros c files H. discriminate. Qed.

Lemma links_clean_set (links : pdict) (k : string) (l : list pv) :
  links_clean links ->
  (forall v, In v l -> exists d, v = PDict d /\ dict_get "versions" d = None) ->
  links_clean (dict_set k (PList l) links).
Proof.
  intros H Hl c files Hc. rewrite dict_get_set in Hc.
  destruct (String.eqb c k).
  - injection Hc as <-. exact Hl.
  - exact (H c files Hc).
Qed.

Lemma scan_step_clean (bucket prefix : string) (acc : pdict * list string)
    (obj : s3_object) :
  links_clean (fst acc) -> links_clean (fst (scan_step bucket prefix acc obj)).
Proof.
  destruct acc as [links names]. cbn [fst]. intros H.
  cbv beta iota zeta delta [scan_step].
  destruct (ends_with "/" (Key obj)); [exact H|].
  match goal with |- context [match ?m with (_, _) => _ end] => destruct m as [category filename] end.
  cbn [fst].
  match goal with |- context [dict_get category ?l1] =>
    assert (H1 : links_clean l1) by
      (destruct (dict_mem category links); [exact H|apply links_clean_set; [exact H|intros ? []]]);
    destruct (dict_get category l1) as [[| | | |l| |]|] eqn:E; try exact H1
  end.
  apply links_clean_set; [exact H1|].
  intros v Hv. apply in_app_or in Hv as [Hv|[<-|[]]].
  - exact (H1 category l E v Hv).
  - eexists. split; reflexivity.
Qed.

Lemma scan_fold_clean (bucket prefix : string) (objs : list s3_object)
    (acc : pdict * list string) :
  links_clean (fst acc) -> links_clean (fst (fold_left (scan_step bucket prefix) objs acc)).
Proof.
  revert acc. induction objs as [|o objs IH]; intros acc H; [exact H|].
  cbn [fold_left]. apply IH, scan_step_clean, H.
Qed.

Lemma scan_entries_fresh (bucket base_path : string) (objs : list s3_object)
    (db : list submission) (sid : string) (sub : submission) :
  find_submission db sid = Some sub ->
  forall category filename d,
    entry_of (snd (run_scan bucket base_path (Some objs) db sid)) sid category filename
      = Some d ->
    dict_get "versions" d = None.
Proof.
  intros Hf c n d H. unfold run_scan, scan_and_sync_submission in H. rewrite Hf in H.
  pose proof (scan_fold_clean bucket (base_path ++ sid ++ "/") objs
                ([], set_of (default [] (document_names sub))) links_clean_nil) as Hc.
  destruct (fold_left (scan_step bucket (base_path ++ sid ++ "/")) objs
              ([], set_of (default [] (document_names sub)))) as [links' names'].
  cbn [fst] in Hc.
  unfold commit_updates in H. cbn [snd fold_left flush_update ru_ref ru_pk ru_value
                                   apply_column] in H.
  unfold entry_of in H. rewrite !find_update_row, Hf in H by reflexivity.
  cbn [option_map set_links submission_pk] in H. rewrite Z.eqb_refl in H.
  cbn [set_docs set_links submission_pk] in H. rewrite Z.eqb_refl in H.
  unfold entry_in in H. cbn [apply_column set_docs set_links s3_file_links default from_option] in H.
  unfold id in H.
  destruct (dict_get c links') as [[| | | |files| |]|] eqn:E; try discriminate.
  destruct (first_match n files) as [[i d0]|] eqn:Hm; [|discriminate].
  cbn in H. injection H as <-.
  destruct (first_match_some _ _ _ _ Hm) as [Hi _].
  apply list_elem_of_lookup_2, list_elem_of_In in Hi.
  destruct (Hc c files E _ Hi) as (d1 & Hd1 & Hv). injection Hd1 as ->. exact Hv.
Qed.

(** C6 (counterexample): [scan_and_sync_submission] rebuilds
    [s3_file_links] from the S3 listing with entries that carry no
    [versions] list, so the entry ["a.pdf"] of [versioned_row] loses its
    recorded version. *)
Theorem scan_discards_version_history : ~ history_claim_as_stated.
Proof.
  intros H.
  destruct (H [versioned_row]) as (_ & _ & Hscan).
  { constructor; [intros Hin; inversion Hin|constructor]. }
  assert (E1 : entry_of [versioned_row] "s1" "files" "a.pdf" = Some versioned_entry)
    by (vm_compute; reflexivity).
  assert (E2 : entry_of (snd (run_scan "bucket" "submissions/" (Some scan_listing)
                                [versioned_row] "s1")) "s1" "files" "a.pdf"
               = Some [("original_name", PStr "a.pdf");
                       ("s3_key", PStr "submissions/s1/files/a.pdf");
                       ("url", PStr "https://bucket.s3.amazonaws.com/submissions/s1/files/a.pdf");
                       ("last_modified", PStr "2024-01-01T00:00:00")])
    by (vm_compute; reflexivity).
  apply (Hscan "bucket" "submissions/" (Some scan_listing) "s1" "s1" "files" "a.pdf"
           _ _ E1 E2 (PDict [("original_name", PStr "a.pdf");
                             ("s3_key", PStr "submissions/s1/files/a_v0.pdf")])).
  left. reflexivity.
Qed.

(** C6 (amended): for a store with distinct primary keys,
    [sync_file_changes] and [delete_file_from_db] preserve recorded
    history (an entry found before and after the call keeps every element
    of its [versions] list), whereas [scan_and_sync_submission], given an
    S3 listing for an existing submission, leaves that submission with
    entries none of which has a [versions] key. *)
Theorem file_sync_history (db : list submission) (Hpk : NoDup (map submission_pk db)) :
  (forall bucket now_iso generated_version sid fi,
     history_preserved db (snd (run_sync bucket now_iso generated_version db sid fi))) /\
  (forall sid filename category,
     history_preserved db (snd (run_delete db sid filename category))) /\
  (forall bucket base_path objs sid sub,
     find_submission db sid = Some sub ->
     forall category filename d,
       entry_of (snd (run_scan bucket base_path (Some objs) db sid)) sid category filename
         = Some d ->
       dict_get "versions" d = None).
Proof.
  split; [|split].
  - intros. apply sync_history, Hpk.
  - intros sid filename category. unfold run_delete.
    pose proof (delete_calls_loaded db sid filename category) as Hl.
    destruct (delete_file_from_db db sid filename category) as [res us].
    cbn [snd]. rewrite (commit_loaded db us Hl). apply history_preserved_refl.
  - intros bucket base_path objs sid sub Hf. exact (scan_entries_fresh _ _ _ _ _ _ Hf).
Qed.

Lemma file_sync_history_witness :
  NoDup (map submission_pk [versioned_row]) /\
  entry_of [versioned_row] "s1" "files" "a.pdf" = Some versioned_entry /\
  versions_of versioned_entry <> [] /\
  (forall d, entry_of (snd (run_scan "bucket" "submissions/" (Some scan_listing)
                              [versioned_row] "s1")) "s1" "files" "a.pdf" = Some d ->
             dict_get "versions" d = None).
Proof.
  assert (Hpk : NoDup (map submission_pk [versioned_row])).
  { constructor; [intros Hin; inversion Hin|constructor]. }
  split; [exact Hpk|]. split; [vm_compute; reflexivity|]. split; [discriminate|].
  exact (proj2 (proj2 (file_sync_history [versioned_row] Hpk))
           "bucket" "submissions/" scan_listing "s1" versioned_row eq_refl "files" "a.pdf").
Defined.


Lemma auth_try_not_403 jwt_verify fts st now off h r :
  auth_try jwt_verify fts st now off h = Ok r -> forall c, r <> HTMLResponse 403 c.
Proof.
  unfold auth_try. intros H c ->.
  destruct (negb (contains "Bearer " h)); [discriminate|].
  destruct (list_index1 _) as [tok|]; cbn in H; [|discriminate].
  destruct (jwt_decode _ _ _ _ _) as [p|]; cbn in H; [|discriminate].
  destruct (py_lt_float _ _) as [[|]|]; cbn in H; [|discriminate|discriminate].
  destruct (py_timestamp (dict_get "exp" p)) as [x|]; cbn in H; [|discriminate].
  destruct (fts x); discriminate.
Qed.

(** X1: for a request that is not [OPTIONS] and not under a public path,
    carrying a non-empty [x-api-key] header [k], [AuthMiddleware] answers
    403 exactly when the [verify_api_key] dependency rejects [k]: both
    compare the key with [settings.API_KEY], and no later step of the
    middleware answers 403. *)
Theorem verify_api_key_agrees_with_middleware jwt_verify fts st public_paths now off req k :
  String.eqb (method req) "OPTIONS" = false ->
  existsb (fun p => starts_with p (path req)) public_paths = false ->
  header_get "x-api-key" (headers req) = Some k -> k <> EmptyString ->
  (exists c, auth_dispatch jwt_verify fts st public_paths now off req = HTMLResponse 403 c)
  <-> (exists e, verify_api_key st k = Err e).
Proof.
  intros Hm Hp Hk Hne. unfold auth_dispatch, verify_api_key.
  rewrite Hm, Hp, Hk.
  replace (String.eqb k EmptyString) with false
    by (symmetry; apply String.eqb_neq; exact Hne).
  cbn [orb]. destruct (negb (String.eqb k (API_KEY st))).
  - split; intros _; eexists; reflexivity.
  - split; [|intros [e He]; discriminate].
    intros [c Hc]. exfalso.
    destruct (header_get "authorization" (headers req)) as [[|a h]|]; try discriminate.
    destruct (auth_try jwt_verify fts st now off (String a h)) as [r|[e| | | |]] eqn:E;
      try discriminate.
    exact (auth_try_not_403 _ _ _ _ _ _ _ E c Hc).
Qed.

Lemma verify_api_key_agrees_with_middleware_witness :
  let req := {| method := "GET"; path := "/api/documents";
                headers := [("x-api-key", "wrong")]; client_host := None |} in
  String.eqb (method req) "OPTIONS" = false /\
  existsb (fun p => starts_with p (path req)) ["/health"; "/api/auth/login"] = false /\
  header_get "x-api-key" (headers req) = Some "wrong" /\ "wrong" <> EmptyString /\
  ((exists c, auth_dispatch (fun _ _ _ => None) (fun _ => true) example_settings
               ["/health"; "/api/auth/login"] 0 0 req = HTMLResponse 403 c)
   <-> (exists e, verify_api_key example_settings "wrong" = Err e)).
Proof.
  cbv zeta. split; [reflexivity|]. split; [reflexivity|]. split; [reflexivity|].
  split; [discriminate|].
  apply verify_api_key_agrees_with_middleware; [reflexivity|reflexivity|reflexivity|discriminate].
Defined.

Lemma py_int_err (v : pv) (e : exn) :
  py_int v = Err e -> e = TypeError \/ e = ValueError \/ e = OverflowError.
Proof.
  destruct v as [| | | s | | |[q|n|]]; cbn; intros H; try discriminate;
    try (injection H as <-; auto).
  destruct (py_int_str s); [discriminate|injection H as <-; auto].
Qed.

Lemma py_int_ok_compare (v : pv) (z : Z) (b : Q) :
  py_int v = Ok z ->
  (py_lt_float (Some v) b = Err TypeError /\ py_timestamp (Some v) = Err TypeError) \/
  exists x, py_timestamp (Some v) = Ok x /\ py_lt_float (Some v) b = Ok (Qltb x b).
Proof.
  destruct v as [| | | s | | |[q|n|]]; cbn; intros H; try discriminate;
    try (right; eexists; split; reflexivity).
  left. split; reflexivity.
Qed.

(** X10: [get_current_user] accepts a token only with the verifier's own
    payload for the configured key and algorithm, whose [exp] is a number
    (an [int], a [bool] or a finite [float] [x]) such that [int(x)] is
    later than the real time [now] and [x] is not before the value of
    [datetime.utcnow().timestamp()]; an [exp] given as a string is never
    accepted.  Every exception it lets out is an [HTTPException] 401, a
    [TypeError] or an [OverflowError], never a [PyJWTError]. *)
Theorem get_current_user_outcomes jwt_verify st now off token :
  (forall user, get_current_user jwt_verify st now off token = Ok user ->
   jwt_verify token (JWT_SECRET_KEY st) (JWT_ALGORITHM st) = Some user /\
   exists v e x, dict_get "exp" user = Some v /\
     py_int v = Ok e /\ (now < inject_Z e)%Q /\
     py_timestamp (Some v) = Ok x /\ (now - off <= x)%Q) /\
  (forall e, get_current_user jwt_verify st now off token = Err e ->
   (exists d, e = HTTPException 401 d) \/ e = TypeError \/ e = OverflowError).
Proof.
  unfold get_current_user, jwt_decode.
  destruct (jwt_verify token (JWT_SECRET_KEY st) (JWT_ALGORITHM st)) as [p|] eqn:Ev;
    [|cbn; split; [discriminate|intros e E; injection E as <-; left; eauto]].
  destruct (dict_get "exp" p) as [v|] eqn:Ex;
    [|cbn; rewrite Ex; cbn; split; [discriminate|intros e E; injection E as <-; auto]].
  destruct (py_int v) as [z|e0] eqn:Ei.
  2: { destruct (py_int_err v e0 Ei) as [-> | [-> | ->]]; cbn;
       (split; [discriminate|intros e E; injection E as <-; eauto]). }
  destruct (Qle_bool (inject_Z z) now) eqn:Eq;
    [cbn; split; [discriminate|intros e E; injection E as <-; left; eauto]|].
  cbn [rbind]. rewrite Ex. unfold utcnow_timestamp.
  destruct (py_int_ok_compare v z (now - off) Ei) as [[Hlt _]|(x & Hx & Hlt)];
    rewrite Hlt; cbn [rbind];
    [split; [discriminate|intros e E; injection E as <-; auto]|].
  unfold Qltb. destruct (Qle_bool (now - off) x) eqn:Eq2; cbn.
  - split; [|intros e E; discriminate].
    intros u Hu. injection Hu as <-. split; [reflexivity|].
    exists v, z, x. split; [exact Ex|]. split; [exact Ei|]. split.
    + apply Qnot_le_lt. intros C. apply Qle_bool_iff in C. congruence.
    + split; [exact Hx|]. apply Qle_bool_iff. exact Eq2.
  - split; [discriminate|intros e E; injection E as <-; left; eauto].
Qed.


(* ------------------------------------------------------------------ *)
(** ** [get_file_versions] and the other methods *)

Lemma first_match_exists (f : string) (l : list pv) :
  existsb (matches_name f) l = true <-> exists p, first_match f l = Some p.
Proof.
  induction l as [|v l IH]; cbn [existsb first_match].
  - split; [discriminate|intros [p H]; discriminate].
  - destruct v as [| | | | |d|].
    6: { destruct (matches_name f (PDict d)) eqn:M; cbn [orb].
         + split; [intros _; eexists; reflexivity|reflexivity].
         + rewrite IH. split; intros [p H];
             [exists (S (fst p), snd p); rewrite H; reflexivity
             |destruct (first_match f l) as [q|]; [exists q; reflexivity|discriminate]]. }
    all: cbn [matches_name orb]; rewrite IH; split; intros [p H];
           [exists (S (fst p), snd p); rewrite H; reflexivity
           |destruct (first_match f l) as [q|]; [exists q; reflexivity|discriminate]].
Qed.

Lemma matches_name_nonempty (f : string) (d : pdict) :
  matches_name f (PDict d) = true -> d <> [].
Proof. intros M ->. discriminate. Qed.

Lemma error_result_status (msg : string) :
  dict_get "status" (error_result msg) = Some (PStr "error").
Proof. reflexivity. Qed.


Lemma get_file_versions_entry (db : list submission) (sid filename category : string)
    (d : pdict) (n : nat) :
  entry_of db sid category filename = Some d ->
  py_len (versions_value d) = Some n ->
  get_file_versions db sid filename category =
  [("status", PStr "success"); ("filename", PStr filename);
   ("current_version", PDict (dict_del "versions" d));
   ("versions", versions_value d); ("version_count", PNum (Z.of_nat n))].
Proof.
  unfold entry_of, entry_in, get_file_versions, versions_value.
  destruct (find_submission db sid) as [sub|]; [|discriminate].
  destruct (dict_get category (default [] (s3_file_links sub))) as [[| | | |files| |]|];
    try discriminate.
  destruct (first_match filename files) as [[i d']|] eqn:Fm; [|discriminate].
  cbn. intros Hd. injection Hd as <-.
  pose proof (matches_name_nonempty _ _ (proj2 (first_match_some _ _ _ _ Fm))) as Hne.
  destruct d' as [|kv d']; [contradiction|].
  intros Hn. rewrite Hn. reflexivity.
Qed.

Lemma get_file_versions_success (db : list submission) (sid filename category : string) :
  dict_get "status" (get_file_versions db sid filename category) = Some (PStr "success") ->
  exists d n, entry_of db sid category filename = Some d /\
    py_len (versions_value d) = Some n.
Proof.
  unfold entry_of, entry_in, get_file_versions, versions_value.
  destruct (find_submission db sid) as [sub|]; [|discriminate].
  destruct (dict_get category (default [] (s3_file_links sub))) as [[| | | |files| |]|];
    try discriminate.
  destruct (first_match filename files) as [[i [|kv d']]|]; try discriminate.
  destruct (py_len _) as [n|] eqn:Hn; [|discriminate].
  intros _. exists (kv :: d'), n. split; [reflexivity|exact Hn].
Qed.


Lemma find_commit_updates (db : list submission) (us : list repo_update) (sid : string)
    (sub : submission) :
  (forall u, In u us -> ru_pk u = submission_pk sub) ->
  find_submission db sid = Some sub ->
  find_submission (commit_updates db us) sid = Some (commit_row us sub).
Proof.
  unfold commit_updates, commit_row.
  revert db sub. induction us as [|u us IH]; intros db sub Hpk Hf; [exact Hf|].
  cbn [fold_left].
  assert (Hpk' : forall w, In w us ->
            ru_pk w = submission_pk (match ru_ref u with Loaded => sub
                                     | Fresh => apply_column (ru_value u) sub end)).
  { intros w Hw. rewrite (Hpk w (or_intror Hw)).
    destruct (ru_ref u); [reflexivity|destruct (ru_value u); reflexivity]. }
  apply IH; [exact Hpk'|].
  unfold flush_update. destruct (ru_ref u); [exact Hf|].
  rewrite find_update_row; [|intros s; destruct (ru_value u); reflexivity].
  rewrite Hf. cbn. rewrite (Hpk u (or_introl eq_refl)), Z.eqb_refl. reflexivity.
Qed.


(** X3: when the stored [s3_file_links] of a submission is [NULL] or
    empty, a successful [sync_file_changes] that adds a file persists it:
    [get_file_versions] on the committed rows then reports success for
    that file, with no versions, a [version_count] of 0, and a current
    version that carries the file's name, S3 key and creation time and no
    [versions] key. *)
Theorem sync_add_then_get_file_versions (bucket now_iso generated_version : string)
    (db : list submission) (sid : string) (fi : file_info) (sub : submission)
    (filename s3_key : string) :
  find_submission db sid = Some sub ->
  links_ref sub = Fresh ->
  fi_filename fi = Some filename -> filename <> EmptyString ->
  fi_s3_key fi = Some s3_key -> s3_key <> EmptyString ->
  let r := get_file_versions (snd (run_sync bucket now_iso generated_version db sid fi))
             sid filename (default "files" (fi_category fi)) in
  dict_get "status" r = Some (PStr "success") /\
  dict_get "versions" r = Some (PList []) /\
  dict_get "version_count" r = Some (PNum 0) /\
  exists cur, dict_get "current_version" r = Some (PDict cur) /\
    dict_get "original_name" cur = Some (PStr filename) /\
    dict_get "s3_key" cur = Some (PStr s3_key) /\
    dict_get "created_at" cur = Some (PStr now_iso) /\
    dict_get "versions" cur = None.
Proof.
  intros Hf Hfresh Hfn Hne Hk Hke r.
  assert (Hl0 : default [] (s3_file_links sub) = []).
  { unfold links_ref in Hfresh. destruct (s3_file_links sub) as [[|? ?]|];
      [reflexivity|discriminate|reflexivity]. }
  set (category := default "files" (fi_category fi)) in *.
  unfold r, run_sync. clear r.
  destruct (sync_file_changes bucket now_iso generated_version db sid fi) as [res us] eqn:Es.
  cbn [snd].
  unfold sync_file_changes in Es. rewrite Hf, Hl0, Hfn, Hk in Es. fold category in Es.
  rewrite (proj2 (String.eqb_neq _ _) Hne), (proj2 (String.eqb_neq _ _) Hke) in Es.
  cbn [orb dict_mem dict_get dict_set] in Es. rewrite String.eqb_refl in Es.
  cbn [first_match app] in Es. rewrite Hfresh in Es.
  set (info := dict_set "version" _ _) in Es.
  set (newf := dict_set "created_at" (PStr now_iso) (dict_set "versions" (PList []) info)) in Es.
  injection Es as _ <-.
  set (ds := if existsb _ _ then _ else _).
  set (links' := [(category, PList [PDict newf])]).
  set (us := app ds [{| ru_pk := submission_pk sub; ru_ref := Fresh;
                       ru_value := ColLinks links' |}]).
  assert (Hpk : forall u, In u us -> ru_pk u = submission_pk sub).
  { intros u Hu. apply in_app_or in Hu. unfold ds in Hu.
    destruct Hu as [Hu|[<-|[]]]; [|reflexivity].
    destruct (existsb _ _); [destruct Hu|destruct Hu as [<-|[]]; reflexivity]. }
  pose proof (find_commit_updates _ _ _ _ Hpk Hf) as Hc.
  assert (Hlinks : s3_file_links (commit_row us sub) = Some links').
  { unfold commit_row, us. rewrite fold_left_app. reflexivity. }
  assert (Hname : dict_get "original_name" newf = Some (PStr filename)).
  { unfold newf, info. destruct (fi_size fi), (fi_content_type fi); reflexivity. }
  assert (Hentry : entry_of (commit_updates db us) sid category filename = Some newf).
  { unfold entry_of, entry_in. rewrite Hc, Hlinks. cbn. rewrite String.eqb_refl.
    cbn [first_match]. replace (matches_name filename (PDict newf)) with true;
    [reflexivity|]. cbn [matches_name]. rewrite Hname, String.eqb_refl. reflexivity. }
  assert (Hv : versions_value newf = PList []).
  { unfold versions_value, newf, info. destruct (fi_size fi), (fi_content_type fi); reflexivity. }
  rewrite (get_file_versions_entry _ _ _ _ newf 0 Hentry); [|rewrite Hv; reflexivity].
  rewrite Hv. cbn. repeat split.
  exists (dict_del "versions" newf). split; [reflexivity|].
  unfold newf, info. destruct (fi_size fi), (fi_content_type fi); cbn; repeat split.
Qed.

(* ------------------------------------------------------------------ *)
(** ** What [scan_and_sync_submission] writes *)

Lemma set_add_In (x y : string) (s : list string) :
  In x (set_add y s) <-> x = y \/ In x s.
Proof.
  unfold set_add. destruct (existsb (String.eqb y) s) eqn:E.
  - split; [tauto|]. intros [->|H]; [|exact H].
    apply existsb_exists in E as [z [Hz Ez]]. apply String.eqb_eq in Ez. subst. exact Hz.
  - rewrite in_app_iff. cbn. intuition (subst; auto).
Qed.

Lemma set_add_NoDup (y : string) (s : list string) : NoDup s -> NoDup (set_add y s).
Proof.
  unfold set_add. destruct (existsb (String.eqb y) s) eqn:E; intros H; [exact H|].
  apply NoDup_app. split; [exact H|]. split; [|apply NoDup_singleton].
  intros x Hx Hy. apply list_elem_of_singleton in Hy. subst x.
  apply list_elem_of_In in Hx.
  assert (existsb (String.eqb y) s = true) by (apply existsb_exists; exists y;
    split; [exact Hx|apply String.eqb_refl]). congruence.
Qed.

Lemma set_fold_spec (l s : list string) :
  NoDup s ->
  NoDup (fold_left (fun s x => set_add x s) l s) /\
  (forall x, In x s \/ In x l -> In x (fold_left (fun s x => set_add x s) l s)).
Proof.
  revert s. induction l as [|y l IH]; intros s H; cbn [fold_left].
  - split; [exact H|]. intros x [Hx|[]]; exact Hx.
  - destruct (IH (set_add y s) (set_add_NoDup y s H)) as [H1 H2].
    split; [exact H1|]. intros x Hx. apply H2.
    destruct Hx as [Hx|[<-|Hx]]; [left; apply set_add_In; auto|left; apply set_add_In; auto|auto].
Qed.

Lemma scan_inv_set (links : pdict) (names : list string) (k : string) (l : list pv) :
  scan_inv (links, names) ->
  (forall x, In x l -> exists d n, x = PDict d /\ dict_get "versions" d = None /\
     dict_get "original_name" d = Some (PStr n) /\ In n names) ->
  scan_inv (dict_set k (PList l) links, names).
Proof.
  intros H Hl c v Hc. cbn [fst] in Hc. rewrite dict_get_set in Hc.
  destruct (String.eqb c k).
  - injection Hc as <-. exists l. split; [reflexivity|exact Hl].
  - exact (H c v Hc).
Qed.

Lemma scan_inv_names (links : pdict) (names names' : list string) :
  scan_inv (links, names) -> (forall n, In n names -> In n names') ->
  scan_inv (links, names').
Proof.
  intros H Hn c v Hc. destruct (H c v Hc) as [l [-> Hl]]. exists l. split; [reflexivity|].
  intros x Hx. destruct (Hl x Hx) as (d & n & -> & H1 & H2 & H3).
  exists d, n. auto.
Qed.


Lemma entry_count_set (k : string) (v : pv) (d : pdict) :
  (entry_count (dict_set k v d) + opt_count (dict_get k d) = entry_count d + val_count v)%nat.
Proof.
  induction d as [|[k0 v0] d IH]; cbn; [lia|].
  destruct (String.eqb k k0) eqn:E; cbn.
  - apply String.eqb_eq in E. subst. cbn. lia.
  - unfold entry_count in IH. lia.
Qed.

Lemma scan_step_inv (bucket prefix : string) (acc : pdict * list string) (obj : s3_object) :
  scan_inv acc -> NoDup (snd acc) ->
  let acc' := scan_step bucket prefix acc obj in
  scan_inv acc' /\ NoDup (snd acc') /\ (forall n, In n (snd acc) -> In n (snd acc')) /\
  entry_count (fst acc') =
    (entry_count (fst acc) + if ends_with "/" (Key obj) then 0 else 1)%nat.
Proof.
  destruct acc as [links names]. cbn [fst snd]. intros H Hnd.
  cbv beta iota zeta delta [scan_step].
  destruct (ends_with "/" (Key obj)); [split; [exact H|]; split; [exact Hnd|]; split; [auto|cbn [fst]; lia]|].
  match goal with |- context [match ?m with (_, _) => _ end] => destruct m as [category filename] end.
  cbn [fst snd].
  assert (Hincl : forall n, In n names -> In n (set_add filename names))
    by (intros n Hn; apply set_add_In; auto).
  apply (scan_inv_names _ _ _ H) in Hincl as H'.
  remember (if dict_mem category links then links
            else dict_set category (PList []) links) as l1 eqn:Hl1.
  assert (H1 : scan_inv (l1, set_add filename names) /\ entry_count l1 = entry_count links
               /\ exists l, dict_get category l1 = Some (PList l)).
  { subst l1. destruct (dict_mem category links) eqn:M.
    - split; [exact H'|]. split; [reflexivity|].
      unfold dict_mem in M. destruct (dict_get category links) as [v|] eqn:E; [|discriminate].
      destruct (H category v E) as [l [-> _]]. eauto.
    - split; [apply scan_inv_set; [exact H'|intros ? []]|].
      unfold dict_mem in M. destruct (dict_get category links) eqn:E; [discriminate|].
      split; [|exists []; apply dict_get_set_eq].
      pose proof (entry_count_set category (PList []) links) as C. rewrite E in C.
      cbn in C. lia. }
  destruct H1 as (H1 & C1 & l & E). rewrite E.
  split; [|split; [apply set_add_NoDup, Hnd|split; [exact Hincl|]]].
  - apply scan_inv_set; [exact H1|].
    intros x Hx. apply in_app_or in Hx as [Hx|[<-|[]]].
    + destruct (H1 category (PList l) E) as [l' [Hl' Hl]]. injection Hl' as <-. exact (Hl x Hx).
    + eexists _, filename. split; [reflexivity|]. split; [reflexivity|].
      split; [reflexivity|]. apply set_add_In. auto.
  - pose proof (entry_count_set category (PList (app l [PDict
      [("original_name", PStr filename); ("s3_key", PStr (Key obj));
       ("url", PStr ("https://" ++ bucket ++ ".s3.amazonaws.com/" ++ Key obj));
       ("last_modified", PStr (LastModified obj))]])) l1) as C.
    rewrite E in C. cbn [opt_count val_count] in C. rewrite length_app in C. cbn in C. lia.
Qed.

Lemma scan_fold_inv (bucket prefix : string) (objs : list s3_object)
    (acc : pdict * list string) :
  scan_inv acc -> NoDup (snd acc) ->
  let acc' := fold_left (scan_step bucket prefix) objs acc in
  scan_inv acc' /\ NoDup (snd acc') /\ (forall n, In n (snd acc) -> In n (snd acc')) /\
  entry_count (fst acc') = (entry_count (fst acc) + List.length (listed_files objs))%nat.
Proof.
  revert acc. induction objs as [|o objs IH]; intros acc H Hnd; cbn [fold_left].
  - split; [exact H|]. split; [exact Hnd|]. split; [auto|cbn; lia].
  - destruct (scan_step_inv bucket prefix acc o H Hnd) as (H1 & H2 & H3 & H4).
    destruct (IH _ H1 H2) as (H5 & H6 & H7 & H8).
    split; [exact H5|]. split; [exact H6|]. split; [auto|].
    rewrite H8, H4. unfold listed_files. cbn [List.filter].
    destruct (ends_with "/" (Key o)); cbn; fold (listed_files objs); lia.
Qed.

Lemma get_file_versions_status (db : list submission) (sid filename category : string) :
  dict_get "status" (get_file_versions db sid filename category) = Some (PStr "success") \/
  dict_get "status" (get_file_versions db sid filename category) = Some (PStr "error").
Proof.
  unfold get_file_versions.
  destruct (find_submission db sid) as [sub|]; [|right; reflexivity].
  destruct (dict_get category (default [] (s3_file_links sub))) as [[| | | |files| |]|];
    try (right; reflexivity).
  destruct (first_match filename files) as [[i [|kv d']]|]; try (right; reflexivity).
  destruct (py_len _); [left|right]; reflexivity.
Qed.

Lemma scan_row (bucket base_path : string) (objs : list s3_object) (db : list submission)
    (sid : string) (sub : submission) :
  find_submission db sid = Some sub ->
  let acc' := fold_left (scan_step bucket (base_path ++ sid ++ "/")) objs
                ([], set_of (default [] (document_names sub))) in
  find_submission (snd (run_scan bucket base_path (Some objs) db sid)) sid
    = Some (set_docs (snd acc') (set_links (fst acc') sub)) /\
  dict_get "file_count" (fst (run_scan bucket base_path (Some objs) db sid))
    = Some (PNum (Z.of_nat (List.length objs) - 1)).
Proof.
  intros Hf acc'. unfold run_scan, scan_and_sync_submission. rewrite Hf. fold acc'.
  destruct acc' as [links' names'] eqn:Ea. cbn [fst snd].
  split; [|reflexivity].
  rewrite (find_commit_updates _ _ _ sub); [reflexivity| |exact Hf].
  intros u [<-|[<-|[]]]; reflexivity.
Qed.

(** X4: for a service whose repository provides [session_scope] (see the
    model of [S3SyncService]): after [scan_and_sync_submission] rewrote a
    submission from an S3 listing, [get_file_versions] on that submission
    either reports an error or reports success with an empty [versions]
    list and a [version_count] of 0. *)
Theorem scan_then_get_file_versions (bucket base_path : string) (objs : list s3_object)
    (db : list submission) (sid : string) (sub : submission) :
  find_submission db sid = Some sub ->
  forall filename category,
    let r := get_file_versions (snd (run_scan bucket base_path (Some objs) db sid))
               sid filename category in
    dict_get "status" r = Some (PStr "error") \/
    (dict_get "status" r = Some (PStr "success") /\
     dict_get "versions" r = Some (PList []) /\ dict_get "version_count" r = Some (PNum 0)).
Proof.
  intros Hf filename category r.
  destruct (get_file_versions_status (snd (run_scan bucket base_path (Some objs) db sid))
              sid filename category) as [Hs|Hs]; [right|left; exact Hs].
  destruct (get_file_versions_success _ _ _ _ Hs) as (d & n & Hd & Hn).
  pose proof (scan_entries_fresh _ _ _ _ _ _ Hf category filename d Hd) as Hv.
  assert (Hvv : versions_value d = PList []) by (unfold versions_value; rewrite Hv; reflexivity).
  rewrite Hvv in Hn. injection Hn as <-.
  unfold r. rewrite (get_file_versions_entry _ _ _ _ d 0 Hd); [|rewrite Hvv; reflexivity].
  rewrite Hvv. repeat split.
Qed.

(** X5: for a service whose repository provides [session_scope] (see the
    model of [S3SyncService]): [delete_file_from_db] reports success
    exactly when [get_file_versions]' lookup (the first dict of the
    category whose [original_name] is the file name) finds an entry, and
    [get_file_versions] reports success exactly when it finds one whose
    [versions] value (default [[]]) has a length. *)
Theorem delete_and_versions_find_same_entry (db : list submission)
    (sid filename category : string) :
  (dict_get "status" (fst (delete_file_from_db db sid filename category))
     = Some (PStr "success") <->
   exists d, entry_of db sid category filename = Some d) /\
  (dict_get "status" (get_file_versions db sid filename category) = Some (PStr "success") <->
   exists d, entry_of db sid category filename = Some d /\
     py_len (versions_value d) <> None).
Proof.
  split.
  - unfold delete_file_from_db, entry_of, entry_in.
    destruct (find_submission db sid) as [sub|];
      [|split; [discriminate|intros [d Hd]; discriminate]].
    destruct (dict_get category (default [] (s3_file_links sub))) as [[| | | |files| |]|];
      try (cbn [fst]; split; [intros Hs; cbn in Hs; discriminate|intros [? Hd]; discriminate]).
    destruct (existsb (matches_name filename) files) eqn:Ex; cbn [negb].
    + split; [intros _|reflexivity].
      apply first_match_exists in Ex as [[i d] Hm]. rewrite Hm. exists d. reflexivity.
    + split; [discriminate|]. intros [d Hd].
      destruct (first_match filename files) as [p|] eqn:Hm; [|discriminate].
      assert (existsb (matches_name filename) files = true)
        by (apply first_match_exists; eauto). congruence.
  - split.
    + intros Hs. destruct (get_file_versions_success _ _ _ _ Hs) as (d & n & Hd & Hn).
      exists d. split; [exact Hd|congruence].
    + intros (d & Hd & Hn). destruct (py_len (versions_value d)) as [n|] eqn:E; [|congruence].
      rewrite (get_file_versions_entry _ _ _ _ d n Hd E). reflexivity.
Qed.

(** X6: for a service whose repository provides [session_scope] (see the
    model of [S3SyncService]): after [scan_and_sync_submission], the
    stored [s3_file_links] of the submission holds one entry per listed
    object whose key does not end in ["/"], while the reported
    [file_count] is the number of listed objects minus one. *)
Theorem scan_file_count_vs_entries (bucket base_path : string) (objs : list s3_object)
    (db : list submission) (sid : string) (sub : submission) :
  find_submission db sid = Some sub ->
  exists sub', find_submission (snd (run_scan bucket base_path (Some objs) db sid)) sid
                 = Some sub' /\
    entry_count (default [] (s3_file_links sub')) = List.length (listed_files objs) /\
    dict_get "file_count" (fst (run_scan bucket base_path (Some objs) db sid))
      = Some (PNum (Z.of_nat (List.length objs) - 1)).
Proof.
  intros Hf. destruct (scan_row bucket base_path objs db sid sub Hf) as [Hr Hc].
  eexists. split; [exact Hr|]. split; [|exact Hc].
  cbn [set_docs set_links s3_file_links default].
  destruct (set_fold_spec (default [] (document_names sub)) [] (NoDup_nil_2)) as [Hnd _].
  destruct (scan_fold_inv bucket (base_path ++ sid ++ "/") objs
              ([], set_of (default [] (document_names sub)))) as (_ & _ & _ & C).
  - intros c v Hc'. discriminate.
  - exact Hnd.
  - refine (eq_trans _ (eq_trans C _)); reflexivity.
Qed.

(** X7: for a service whose repository provides [session_scope] (see the
    model of [S3SyncService]): after [scan_and_sync_submission], the
    stored [document_names] of the submission has no duplicates, keeps
    every name it held before, and contains the name of every file entry
    of the stored [s3_file_links]. *)
Theorem scan_document_names (bucket base_path : string) (objs : list s3_object)
    (db : list submission) (sid : string) (sub : submission) :
  find_submission db sid = Some sub ->
  exists sub' names',
    find_submission (snd (run_scan bucket base_path (Some objs) db sid)) sid = Some sub' /\
    document_names sub' = Some names' /\
    NoDup names' /\
    (forall n, In n (default [] (document_names sub)) -> In n names') /\
    (forall category n d, entry_in sub' category n = Some d -> In n names').
Proof.
  intros Hf. destruct (scan_row bucket base_path objs db sid sub Hf) as [Hr _].
  destruct (set_fold_spec (default [] (document_names sub)) [] (NoDup_nil_2)) as [Hnd Hin].
  destruct (scan_fold_inv bucket (base_path ++ sid ++ "/") objs
              ([], set_of (default [] (document_names sub)))) as (I & N & S & _).
  { intros c v Hc'. discriminate. }
  { exact Hnd. }
  eexists _, _. split; [exact Hr|]. split; [reflexivity|].
  split; [exact N|]. split.
  - intros n Hn. apply S. apply Hin. right. exact Hn.
  - intros c n d He. unfold entry_in in He.
    cbn [set_docs set_links s3_file_links default] in He.
    destruct (dict_get c _) as [v|] eqn:Ec; [|discriminate].
    destruct (I c v Ec) as [l [-> Hl]].
    destruct (first_match n l) as [[i d0]|] eqn:Hm; [|discriminate].
    cbn in He. injection He as <-.
    destruct (first_match_some _ _ _ _ Hm) as [Hi M].
    apply list_elem_of_lookup_2, list_elem_of_In in Hi.
    destruct (Hl _ Hi) as (d1 & n1 & Hd1 & _ & Ho & Hn1).
    injection Hd1 as <-. cbn [matches_name] in M. rewrite Ho in M.
    apply String.eqb_eq in M. subst n1. exact Hn1.
Qed.


Lemma prune_in_minute (a now : Q) (ts : list Q) :
  (a <= now)%Q -> (now < a + 60)%Q ->
  List.filter (in_minute a) (prune now ts) = List.filter (in_minute a) ts.
Proof.
  intros H1 H2. unfold prune. induction ts as [|x ts IH]; [reflexivity|].
  cbn [List.filter]. destruct (in_minute a x) eqn:Ex.
  - assert (Hk : Qltb (now - x) 60 = true).
    { unfold in_minute in Ex. apply andb_true_iff in Ex as [Ex _].
      apply Qle_bool_iff in Ex. unfold Qltb. apply negb_true_iff.
      destruct (Qle_bool 60 (now - x)) eqn:E; [|reflexivity].
      apply Qle_bool_iff in E. lra. }
    rewrite Hk. cbn [List.filter]. rewrite Ex, IH. reflexivity.
  - destruct (Qltb (now - x) 60); cbn [List.filter]; rewrite ?Ex; exact IH.
Qed.

Lemma rl_forwarded_bound (limit : Z) (a : Q) (ip : string) (reqs : list (Q * request)) :
  forall counts : gmap string (list Q),
  (forall t r, In (t, r) reqs -> (a <= t)%Q /\ (t < a + 60)%Q) ->
  let c0 := List.length (List.filter (in_minute a) (default [] (counts !! ip))) in
  (rl_forwarded limit counts reqs ip + c0 <= Nat.max (Z.to_nat limit) c0)%nat.
Proof.
  induction reqs as [|[t r] reqs IH]; intros counts Ht c0; [cbn; lia|].
  cbn [rl_forwarded].
  destruct (rl_dispatch limit counts t r) as [o counts'] eqn:Ed.
  assert (Ht' : forall t' r', In (t', r') reqs -> (a <= t')%Q /\ (t' < a + 60)%Q)
    by (intros t' r' H; exact (Ht t' r' (or_intror H))).
  destruct (Ht t r (or_introl eq_refl)) as [Ha1 Ha2].
  destruct (String.eqb (path r) "/health") eqn:Eh.
  - unfold rl_dispatch in Ed. rewrite Eh in Ed. injection Ed as <- <-.
    pose proof (IH counts Ht') as IH'. cbn zeta in IH'. fold c0 in IH'.
    cbn [negb]. rewrite andb_false_r. lia.
  - apply String.eqb_neq in Eh.
    destruct (rl_dispatch_eq limit counts t r Eh) as (Ho & Hne & Hip).
    rewrite Ed in Ho, Hne, Hip. cbn [fst snd] in Ho, Hne, Hip.
    destruct (String.eqb (client_ip r) ip) eqn:Ei.
    + apply String.eqb_eq in Ei. subst ip. cbn [andb negb].
      pose proof (IH counts' Ht') as IH'. cbn zeta in IH'. rewrite Hip in IH'.
      cbn [default] in IH'. fold c0 in IH'.
      set (pruned := prune t (default [] (counts !! client_ip r))) in *.
      assert (Hp : List.length (List.filter (in_minute a) pruned) = c0).
      { unfold pruned, c0. rewrite prune_in_minute by assumption. reflexivity. }
      assert (Hpl : (List.length (List.filter (in_minute a) pruned) <= List.length pruned)%nat)
        by apply List.filter_length_le.
      destruct (Z.leb_spec limit (Z.of_nat (List.length pruned))) as [Hge|Hlt];
        subst o; cbv beta iota in IH'; unfold id in IH'.
      * rewrite Hp in IH'. lia.
      * rewrite List.filter_app, List.length_app, Hp in IH'.
        assert (Hin : in_minute a t = true).
        { unfold in_minute. apply andb_true_iff. split; [apply Qle_bool_iff; exact Ha1|].
          unfold Qltb. apply negb_true_iff.
          destruct (Qle_bool (a + 60) t) eqn:E; [|reflexivity].
          apply Qle_bool_iff in E. lra. }
        cbn [List.filter] in IH'. rewrite Hin in IH'. cbn [List.length] in IH'. lia.
    + cbn [andb]. apply String.eqb_neq in Ei.
      pose proof (IH counts' Ht') as IH'. cbn zeta in IH'.
      rewrite (Hne ip (not_eq_sym Ei)) in IH'. fold c0 in IH'. lia.
Qed.

(** X8: along any sequence of requests whose times lie within one
    minute [[a, a + 60)], [RateLimitMiddleware] hands at most
    [limit_per_minute] requests of one client address (other than
    ["/health"]) to [call_next], whatever it had recorded before. *)
Theorem rl_at_most_limit_per_minute (limit : Z) (counts : gmap string (list Q))
    (reqs : list (Q * request)) (ip : string) (a : Q) :
  (forall t r, In (t, r) reqs -> (a <= t)%Q /\ (t < a + 60)%Q) ->
  (rl_forwarded limit counts reqs ip <= Z.to_nat limit)%nat.
Proof.
  intros Ht. pose proof (rl_forwarded_bound limit a ip reqs counts Ht) as H.
  cbn zeta in H. lia.
Qed.

Lemma auth_main_public (jwt_verify : string -> string -> string -> option pdict)
    (fts : Q -> bool) (st : settings) (now off : Q) (req : request) :
  starts_with "/" (path req) = true ->
  auth_dispatch jwt_verify fts st main_public_paths now off req = CallNext None.
Proof.
  intros H. unfold auth_dispatch.
  destruct (String.eqb (method req) "OPTIONS"); [reflexivity|].
  replace (existsb (fun p => starts_with p (path req)) main_public_paths) with true;
    [reflexivity|].
  cbn [existsb main_public_paths]. rewrite H, orb_true_r. reflexivity.
Qed.

(** X9: through the middleware stack of [main.py], a request with a path
    starting with ["/"] that [CORSMiddleware] passes on reaches the route
    without a user when its path is ["/health"] or its client is under the
    limit, and gets status 500 otherwise; it never gets 401 or 403. *)
Theorem app_stack_outcome (jwt_verify : string -> string -> string -> option pdict)
    (fts : Q -> bool) (st : settings) (counts : gmap string (list Q)) (now off : Q)
    (req : request) :
  starts_with "/" (path req) = true ->
  let pruned := prune now (default [] (counts !! client_ip req)) in
  fst (app_dispatch jwt_verify fts st counts now off req) =
    (if String.eqb (path req) "/health" then AppRoute None
     else if (RATE_LIMIT_PER_MINUTE st <=? Z.of_nat (List.length pruned))%Z
     then AppStatus 500 else AppRoute None).
Proof.
  intros Hs pruned. unfold app_dispatch.
  destruct (String.eqb (path req) "/health") eqn:Eh.
  - unfold rl_dispatch. rewrite Eh. cbn. rewrite auth_main_public by exact Hs. reflexivity.
  - apply String.eqb_neq in Eh.
    destruct (rl_dispatch_eq (RATE_LIMIT_PER_MINUTE st) counts now req Eh) as (Ho & _ & _).
    destruct (rl_dispatch (RATE_LIMIT_PER_MINUTE st) counts now req) as [o c'].
    cbn [fst] in Ho. subst o. fold pruned.
    destruct (RATE_LIMIT_PER_MINUTE st <=? Z.of_nat (List.length pruned))%Z; [reflexivity|].
    rewrite auth_main_public by exact Hs. reflexivity.
Qed.

(* ------------------------------------------------------------------ *)
(** ** Instances *)

Lemma sync_add_then_get_file_versions_witness :
  find_submission [fresh_row] "s2" = Some fresh_row /\ links_ref fresh_row = Fresh /\
  dict_get "version_count"
    (get_file_versions (snd (run_sync "bucket" "2024-01-01T00:00:00" "v1704067200"
                               [fresh_row] "s2" new_upload)) "s2" "a.pdf" "files")
  = Some (PNum 0).
Proof.
  split; [reflexivity|]. split; [reflexivity|].
  exact (proj1 (proj2 (proj2
    (sync_add_then_get_file_versions "bucket" "2024-01-01T00:00:00" "v1704067200"
       [fresh_row] "s2" new_upload fresh_row "a.pdf" "submissions/s1/files/a_v2.pdf"
       eq_refl eq_refl eq_refl ltac:(discriminate) eq_refl ltac:(discriminate))))).
Defined.

Lemma scan_then_get_file_versions_witness :
  find_submission [versioned_row] "s1" = Some versioned_row /\
  let r := get_file_versions (snd (run_scan "bucket" "submissions/" (Some scan_listing)
                                     [versioned_row] "s1")) "s1" "a.pdf" "files" in
  dict_get "status" r = Some (PStr "error") \/
  (dict_get "status" r = Some (PStr "success") /\
   dict_get "versions" r = Some (PList []) /\ dict_get "version_count" r = Some (PNum 0)).
Proof.
  split; [reflexivity|].
  exact (scan_then_get_file_versions "bucket" "submissions/" scan_listing [versioned_row]
           "s1" versioned_row eq_refl "a.pdf" "files").
Defined.

Lemma scan_file_count_vs_entries_witness :
  find_submission [versioned_row] "s1" = Some versioned_row /\
  exists sub', find_submission (snd (run_scan "bucket" "submissions/" (Some scan_listing)
                                       [versioned_row] "s1")) "s1" = Some sub' /\
    entry_count (default [] (s3_file_links sub')) = List.length (listed_files scan_listing) /\
    dict_get "file_count" (fst (run_scan "bucket" "submissions/" (Some scan_listing)
                                  [versioned_row] "s1"))
      = Some (PNum (Z.of_nat (List.length scan_listing) - 1)).
Proof.
  split; [reflexivity|].
  exact (scan_file_count_vs_entries "bucket" "submissions/" scan_listing [versioned_row]
           "s1" versioned_row eq_refl).
Defined.

Lemma scan_document_names_witness :
  find_submission [versioned_row] "s1" = Some versioned_row /\
  exists sub' names',
    find_submission (snd (run_scan "bucket" "submissions/" (Some scan_listing)
                            [versioned_row] "s1")) "s1" = Some sub' /\
    document_names sub' = Some names' /\ NoDup names' /\
    (forall n, In n (default [] (document_names versioned_row)) -> In n names') /\
    (forall category n d, entry_in sub' category n = Some d -> In n names').
Proof.
  split; [reflexivity|].
  exact (scan_document_names "bucket" "submissions/" scan_listing [versioned_row]
           "s1" versioned_row eq_refl).
Defined.

Lemma rl_at_most_limit_per_minute_witness :
  let reqs := [(0%Q, get_request "/api/documents" []); (10%Q, get_request "/api/documents" []);
               (20%Q, get_request "/api/documents" [])] in
  (forall t r, In (t, r) reqs -> (0 <= t)%Q /\ (t < 0 + 60)%Q) /\
  (rl_forwarded 2 ∅ reqs "10.0.0.1" <= Z.to_nat 2)%nat.
Proof.
  cbv zeta.
  assert (H : forall t r, In (t, r) [(0%Q, get_request "/api/documents" []);
                (10%Q, get_request "/api/documents" []); (20%Q, get_request "/api/documents" [])]
              -> (0 <= t)%Q /\ (t < 0 + 60)%Q).
  { intros t r Hin. destruct Hin as [Hin|[Hin|[Hin|[]]]]; injection Hin as <- _;
      (split; [vm_compute; intros C; discriminate C|vm_compute; reflexivity]). }
  split; [exact H|].
  exact (rl_at_most_limit_per_minute 2 ∅ _ "10.0.0.1" 0 H).
Defined.

Lemma app_stack_outcome_witness :
  starts_with "/" (path (get_request "/api/documents" [])) = true /\
  fst (app_dispatch (fun _ _ _ => None) (fun _ => true) example_settings ∅ 0 0
         (get_request "/api/documents" [])) =
    (if String.eqb (path (get_request "/api/documents" [])) "/health" then AppRoute None
     else if (RATE_LIMIT_PER_MINUTE example_settings <=? Z.of_nat (List.length
               (prune 0 (default [] ((∅ : gmap string (list Q)) !!
                  client_ip (get_request "/api/documents" []))))))%Z
     then AppStatus 500 else AppRoute None).
Proof.
  split; [reflexivity|].
  exact (app_stack_outcome (fun _ _ _ => None) (fun _ => true) example_settings ∅ 0 0
           (get_request "/api/documents" []) eq_refl).
Defined.
